(** * Catalog browser: SPARQL query builder and filter/pagination controller

    A shallow embedding of
      - [src/app/services/api.service.ts]   (module [ApiService]) and
      - [src/app/ui/tech-data.component.ts] (module [TechDataComponent]),
    followed by the properties of the query text, of the cascading
    category filters and of the pagination bookkeeping.

    Strings are [String.string]; arrays are lists; a SPARQL binding (a JS
    object used as a map) is a [gmap string Term]; a thrown [TypeError] is
    an explicit outcome carrying the component state at the point of the
    throw. *)

From Stdlib Require Import ZArith Lia Ascii String DecimalString DecimalZ.
From stdpp Require Import base option list strings gmap.

(** ** JavaScript helpers *)

Module JS.

(** The double-quote character, as a one-character string. *)
Definition dquote : string := String (Ascii.ascii_of_nat 34) EmptyString.

(** The line feed written [\n] in the source. *)
Definition nl : string := String (Ascii.ascii_of_nat 10) EmptyString.

(** The label wrapped in double quotes (the arrow function of the [map] calls). *)
Definition quoted (c : string) : string := dquote +:+ c +:+ dquote.

(** [Array.prototype.join]. *)
Definition join (sep : string) (l : list string) : string := String.concat sep l.

(** The quoted labels joined with a comma. *)
Definition quotedValues (xs : list string) : string := join "," (map quoted xs).

(** [xs.length > 0] *)
Definition nonEmpty {A} (xs : list A) : bool := negb (length xs =? 0)%nat.

(** [results.flat()] on an array of arrays. *)
Definition flat {A} (xss : list (list A)) : list A := concat xss.

(** [[...new Set(xs)]]: a [Set] keeps every value once, in the order of first
    insertion, and the spread lists it in that order. *)
Definition Set_add (acc : list string) (x : string) : list string :=
  if bool_decide (x ∈ acc) then acc else acc ++ [x].

Definition Set_spread (xs : list string) : list string := fold_left Set_add xs [].

(** *** Numbers

    The numbers of the controller are page numbers, counts and offsets. They
    are modelled by [NaN], the two infinities and the integers; the quotient
    inside [Math.ceil(a / b)] is the only non-integer the code computes and
    is taken together with its ceiling ([Math_ceil_div]). Integer arithmetic
    on IEEE doubles is exact below 2^53 in magnitude, which is the range this
    model stands for; fractional values and the sign of zero are not
    represented. The price and discount bounds are only handed on to the
    query builder, which is generic in the type of its numbers. *)

Inductive number := NaN | NegInfinity | Infinity | Fin (z : Z).

Definition isNaN (n : number) : bool := if n is NaN then true else false.

(** [a < b]; false as soon as one side is [NaN]. *)
Definition lt (a b : number) : bool :=
  match a, b with
  | NaN, _ | _, NaN => false
  | Fin x, Fin y => (x <? y)%Z
  | NegInfinity, NegInfinity => false
  | NegInfinity, _ => true
  | Infinity, _ => false
  | Fin _, Infinity => true
  | Fin _, NegInfinity => false
  end.

(** [a > b] *)
Definition gt (a b : number) : bool := lt b a.

(** [a <= b]; false as soon as one side is [NaN]. *)
Definition le (a b : number) : bool :=
  match a, b with
  | NaN, _ | _, NaN => false
  | _, _ => negb (lt b a)
  end.

(** [a + b] *)
Definition add (a b : number) : number :=
  match a, b with
  | NaN, _ | _, NaN => NaN
  | Fin x, Fin y => Fin (x + y)
  | Infinity, NegInfinity | NegInfinity, Infinity => NaN
  | Infinity, _ | _, Infinity => Infinity
  | NegInfinity, _ | _, NegInfinity => NegInfinity
  end.

(** [-a] *)
Definition neg (a : number) : number :=
  match a with
  | NaN => NaN
  | Infinity => NegInfinity
  | NegInfinity => Infinity
  | Fin x => Fin (- x)
  end.

(** [a - b] *)
Definition sub (a b : number) : number := add a (neg b).

(** The sign of a number that is not [NaN]. *)
Definition sgn (a : number) : Z :=
  match a with
  | NaN => 0
  | Infinity => 1
  | NegInfinity => -1
  | Fin x => Z.sgn x
  end.

(** [a * b] *)
Definition mul (a b : number) : number :=
  match a, b with
  | NaN, _ | _, NaN => NaN
  | Fin x, Fin y => Fin (x * y)
  | _, _ =>
      match (sgn a * sgn b)%Z with
      | Z0 => NaN
      | Zpos _ => Infinity
      | Zneg _ => NegInfinity
      end
  end.

(** The least integer that is not below [x / y], for [y <> 0]. *)
Definition Zceil_div (x y : Z) : Z := (- ((- x) / y))%Z.

(** [Math.ceil(a / b)] *)
Definition Math_ceil_div (a b : number) : number :=
  match a, b with
  | NaN, _ | _, NaN => NaN
  | Fin x, Fin y =>
      if (y =? 0)%Z then
        match x with Z0 => NaN | Zpos _ => Infinity | Zneg _ => NegInfinity end
      else Fin (Zceil_div x y)
  | Fin _, _ => Fin 0
  | _, Fin y => if (0 <=? y)%Z then a else neg a
  | _, _ => NaN
  end.

(** Truthiness of a number, as tested by [||]: [NaN] and zero are falsy. *)
Definition truthy (a : number) : bool :=
  match a with
  | NaN | Fin Z0 => false
  | _ => true
  end.

(** [a || b] on numbers. *)
Definition or_else (a b : number) : number := if truthy a then a else b.

(** [Number.prototype.toString], as applied by a template literal. Integers
    print in decimal; this is the text the source language prints for the
    [safe] integers (doubles print their shortest digits from 2^53 and switch
    to exponent notation from 10^21). *)
Definition Number_toString (a : number) : string :=
  match a with
  | NaN => "NaN"
  | Infinity => "Infinity"
  | NegInfinity => "-Infinity"
  | Fin z => NilZero.string_of_int (Z.to_int z)
  end.

(** [Number(s)] and unary [+s] on a string, for the literals this model
    represents: the empty string, the infinities, and decimal integers with
    an optional sign. Every other string is sent to [NaN]; that is what the
    source language does for text that is no numeric literal, while
    surrounding white space, fractions, exponents and radix prefixes are
    outside the model: [Number_reads] below names the texts on which this
    definition is the conversion of the source language, and the properties
    that depend on the value read are stated for those texts. *)
Definition digits (s : string) : number :=
  match NilZero.uint_of_string s with
  | Some d => Fin (Z.of_uint d)
  | None => NaN
  end.

Definition Number_of_string (s : string) : number :=
  if bool_decide (s = EmptyString) then Fin 0
  else if bool_decide (s = "Infinity") || bool_decide (s = "+Infinity") then Infinity
  else if bool_decide (s = "-Infinity") then NegInfinity
  else match s with
       | String "+"%char s' => digits s'
       | String "-"%char s' => neg (digits s')
       | _ => digits s
       end.

(** *** Where the model is exact

    The definitions above compute on unbounded integers and read only part
    of the numeric literals. The code computes on doubles: among integers it
    is exact on the safe ones, of magnitude below 2^53, which also print in
    plain decimal; properties that depend on a value computed or printed
    carry that bound as a hypothesis. *)
Definition safe (z : Z) : Prop := (- 2 ^ 53 < z < 2 ^ 53)%Z.

(** The characters that can open a numeric literal: white space is skipped;
    a digit, a sign, a dot or the I of Infinity starts the literal. A text
    that opens with another ASCII character is no number. (Bytes from 128
    on may encode white space and are left out.) *)
Definition white_space (c : ascii) : bool :=
  let n := nat_of_ascii c in
  (n =? 9)%nat || (n =? 10)%nat || (n =? 11)%nat || (n =? 12)%nat || (n =? 13)%nat || (n =? 32)%nat.

Definition digit_char (c : ascii) : bool :=
  let n := nat_of_ascii c in (48 <=? n)%nat && (n <=? 57)%nat.

Definition opens_literal (c : ascii) : bool :=
  digit_char c || Ascii.eqb c "."%char || Ascii.eqb c "I"%char.

Definition no_numeral_start (c : ascii) : bool :=
  (nat_of_ascii c <? 128)%nat && negb (white_space c) && negb (opens_literal c) &&
  negb (Ascii.eqb c "+"%char) && negb (Ascii.eqb c "-"%char).

(** [Number_reads s n]: the text [s] is one whose value under [Number] and
    unary [+] this model represents, and that value is [n]. These are the
    empty text, the three spellings of the infinities, the digit strings of
    safe value with an optional sign (the sign of zero is not kept), and, with
    value [NaN], a sign alone, a sign followed by a character that continues
    no literal, and a text that opens with an ASCII character that starts no
    literal. Text with surrounding white space, a fraction, an exponent or a
    radix prefix is not covered: [Number_of_string] is not the language's
    conversion there. *)
Inductive Number_reads : string -> number -> Prop :=
| reads_empty : Number_reads EmptyString (Fin 0)
| reads_Infinity : Number_reads "Infinity" Infinity
| reads_plus_Infinity : Number_reads "+Infinity" Infinity
| reads_minus_Infinity : Number_reads "-Infinity" NegInfinity
| reads_digits ds d :
    NilZero.uint_of_string ds = Some d -> safe (Z.of_uint d) ->
    Number_reads ds (Fin (Z.of_uint d))
| reads_plus_digits ds d :
    NilZero.uint_of_string ds = Some d -> safe (Z.of_uint d) ->
    Number_reads (String "+"%char ds) (Fin (Z.of_uint d))
| reads_minus_digits ds d :
    NilZero.uint_of_string ds = Some d -> safe (Z.of_uint d) ->
    Number_reads (String "-"%char ds) (Fin (- Z.of_uint d))
| reads_plus_alone : Number_reads "+" NaN
| reads_minus_alone : Number_reads "-" NaN
| reads_plus_text c rest :
    opens_literal c = false -> Number_reads (String "+"%char (String c rest)) NaN
| reads_minus_text c rest :
    opens_literal c = false -> Number_reads (String "-"%char (String c rest)) NaN
| reads_text c rest :
    no_numeral_start c = true -> Number_reads (String c rest) NaN.

(** *** Exceptions

    Reading a property of [undefined] throws a [TypeError]. A callback that
    throws stops there: the outcome keeps the state as the assignments made
    before the throw left it. *)

Inductive Error := TypeError.

Inductive Completion (A : Type) :=
| Normal (a : A)
| Throw (e : Error) (a : A).
Arguments Normal {A} a.
Arguments Throw {A} e a.

(** The state a callback leaves behind, however it completed. *)
Definition state_of {A} (c : Completion A) : A :=
  match c with Normal a | Throw _ a => a end.

(** *** Observables

    Every observable of the program wraps one HTTP call: it delivers one
    value and completes, or it errors. *)

Inductive Notification (A : Type) :=
| Next (a : A)
| Errored.
Arguments Next {A} a.
Arguments Errored {A}.

(** [map(f)]: a projection that throws ([None]) turns into an error
    notification. *)
Definition rx_map {A B} (f : A -> option B) (n : Notification A) : Notification B :=
  match n with
  | Next a => match f a with Some b => Next b | None => Errored end
  | Errored => Errored
  end.

(** [catchError(() => of(d))]: an error is replaced by the value [d]. *)
Definition catchError_of {A} (d : A) (n : Notification A) : A :=
  match n with
  | Next a => a
  | Errored => d
  end.

(** [forkJoin(sources)]: one slot per source, in the order of [sources];
    a slot is filled when its source delivers; the array of all slots is
    emitted once, when the last one is filled. *)
Definition forkJoin_start (A : Type) (n : nat) : list (option A) := replicate n None.

Definition forkJoin_arrive {A} (slots : list (option A)) (arrival : nat * A) : list (option A) :=
  <[arrival.1 := Some arrival.2]> slots.

Definition forkJoin_emit {A} (slots : list (option A)) : option (list A) :=
  mapM id slots.

(** The emission of [forkJoin] over [n] sources after the given arrivals
    ([None]: still waiting). *)
Definition forkJoin {A} (n : nat) (arrivals : list (nat * A)) : option (list A) :=
  forkJoin_emit (fold_left forkJoin_arrive arrivals (forkJoin_start A n)).

End JS.

Import JS.

(** ** api.service.ts *)

Module ApiService.

Section Builder.

  (** Numbers are interpolated into the query text by the template literal's
      implicit [ToString]; the builder is independent of the number
      representation, so both are kept abstract here and instantiated by
      the controller. *)
Variable num : Type.
Variable toString : num -> string.

  (** Lines 30-63: the hierarchical category filter. *)
Definition categoryFilters (categories subCategories endCategories : list string) : string :=
    if nonEmpty endCategories || nonEmpty subCategories || nonEmpty categories then
      let categoryFilters := "
        ?product :hasCategory ?cat .
        ?cat rdfs:label ?catName .
      " in
      let filterConditions : list string :=
        if nonEmpty endCategories then
          [ "?catName IN (" +:+ quotedValues endCategories +:+ ")" ]
        else if nonEmpty subCategories then
          [ "?catName IN (" +:+ quotedValues subCategories +:+ ")" ]
        else if nonEmpty categories then
          [ "?catName IN (" +:+ quotedValues categories +:+ ")" ]
        else [] in
      if nonEmpty filterConditions then
        categoryFilters +:+ "FILTER(" +:+ join " || " filterConditions +:+ ")"
      else categoryFilters
    else EmptyString.

  (** Lines 66-74: the store filter. *)
Definition storeFilters (selectedStores : list string) : string :=
    if nonEmpty selectedStores then
      "
        ?product :soldBy ?storeNode .
        ?storeNode rdfs:label ?storeName .
        FILTER(?storeName IN (" +:+ quotedValues selectedStores +:+ "))
      "
    else EmptyString.

  (** Lines 77-81: the price and discount filters; [x != null] holds for
      every number, so an absent bound is [None]. *)
Definition priceDiscountFilters (minPrice maxPrice minDiscount maxDiscount : option num) : string :=
    let s := EmptyString in
    let s := match minPrice with
             | Some v => s +:+ "FILTER(xsd:decimal(?regularPrice) >= " +:+ toString v +:+ ")" +:+ nl
             | None => s end in
    let s := match maxPrice with
             | Some v => s +:+ "FILTER(xsd:decimal(?regularPrice) <= " +:+ toString v +:+ ")" +:+ nl
             | None => s end in
    let s := match minDiscount with
             | Some v => s +:+ "FILTER(xsd:decimal(?discountPercent) >= " +:+ toString v +:+ ")" +:+ nl
             | None => s end in
    let s := match maxDiscount with
             | Some v => s +:+ "FILTER(xsd:decimal(?discountPercent) <= " +:+ toString v +:+ ")" +:+ nl
             | None => s end in
    s.

  (** Lines 17-133: the text handed to [runSparql]. *)
Definition getGraphData (limit offset : num)
      (categories subCategories endCategories : list string)
      (minPrice maxPrice minDiscount maxDiscount : option num)
      (selectedStores : list string) : string :=
    let categoryFilters := categoryFilters categories subCategories endCategories in
    let storeFilters := storeFilters selectedStores in
    let priceDiscountFilters := priceDiscountFilters minPrice maxPrice minDiscount maxDiscount in
    "
    PREFIX : <http://www.semanticweb.org/andrej/ontologies/2025/7/products-ontology/>
    PREFIX rdfs: <http://www.w3.org/2000/01/rdf-schema#>
    PREFIX xsd: <http://www.w3.org/2001/XMLSchema#>

    SELECT ?product ?title ?store ?fullCategory ?regularPrice ?discountedPrice ?discountPercent ?url ?totalCount
    WHERE {

      # --- Paginated data subquery ---
      {
        SELECT ?product ?title ?store (GROUP_CONCAT(DISTINCT ?categoryLabel; SEPARATOR=" +:+ dquote +:+ " > " +:+ dquote +:+ ") AS ?fullCategory)
              ?regularPrice ?discountedPrice ?discountPercent ?url
        WHERE {
          ?product a :Product .
          OPTIONAL { ?product :hasTitle ?title . }
          OPTIONAL { ?product :soldBy [ rdfs:label ?store ] . }
          OPTIONAL { ?product :hasRegularPrice ?regularPrice . }
          OPTIONAL { ?product :hasDiscountedPrice ?discountedPrice . }
          OPTIONAL { ?product :hasDiscountPercent ?discountPercent . }
          OPTIONAL { ?product :hasUrl ?url . }
          OPTIONAL { ?product :hasCategory ?anyCat . ?anyCat rdfs:label ?categoryLabel . }

          " +:+ categoryFilters +:+ "
          " +:+ storeFilters +:+ "
          " +:+ priceDiscountFilters +:+ "
        }
        GROUP BY ?product ?title ?store ?regularPrice ?discountedPrice ?discountPercent ?url
        ORDER BY ?title
        LIMIT " +:+ toString limit +:+ "
        OFFSET " +:+ toString offset +:+ "
      }

      # --- Total count subquery ---
      {
        SELECT (COUNT(DISTINCT ?product) AS ?totalCount)
        WHERE {
          ?product a :Product .
          OPTIONAL { ?product :hasRegularPrice ?regularPrice . }
          OPTIONAL { ?product :hasDiscountPercent ?discountPercent . }
          OPTIONAL { ?product :hasCategory ?cat . ?cat rdfs:label ?catName . }
          OPTIONAL { ?product :soldBy ?storeNode . ?storeNode rdfs:label ?storeName . }

          " +:+ categoryFilters +:+ "
          " +:+ storeFilters +:+ "
          " +:+ priceDiscountFilters +:+ "
        }
      }
    }".

End Builder.

(** Lines 136-145: the top-level categories. *)
Definition getCategories : string :=
  "
      PREFIX : <http://www.semanticweb.org/andrej/ontologies/2025/7/products-ontology/>
      PREFIX rdfs: <http://www.w3.org/2000/01/rdf-schema#>
      SELECT DISTINCT ?categoryLabel WHERE {
        ?category a :Category ; rdfs:label ?categoryLabel .
        FILTER NOT EXISTS { ?anyParent :hasSubCategory ?category . }
      } ORDER BY ?categoryLabel".

(** Lines 148-158: subcategories of a top category. *)
Definition getSubCategories (category : string) : string :=
  "
      PREFIX : <http://www.semanticweb.org/andrej/ontologies/2025/7/products-ontology/>
      PREFIX rdfs: <http://www.w3.org/2000/01/rdf-schema#>
      SELECT DISTINCT ?subCategoryLabel WHERE {
        ?parentCategory rdfs:label " +:+ dquote +:+ category +:+ dquote +:+ " .
        ?parentCategory :hasSubCategory ?subCategory .
        ?subCategory rdfs:label ?subCategoryLabel .
      } ORDER BY ?subCategoryLabel".

(** Lines 161-171: end categories of a subcategory. *)
Definition getEndCategories (subCategory : string) : string :=
  "
      PREFIX : <http://www.semanticweb.org/andrej/ontologies/2025/7/products-ontology/>
      PREFIX rdfs: <http://www.w3.org/2000/01/rdf-schema#>
      SELECT DISTINCT ?endCategoryLabel WHERE {
        ?parentSub rdfs:label " +:+ dquote +:+ subCategory +:+ dquote +:+ " .
        ?parentSub :hasSubCategory ?endCategory .
        ?endCategory rdfs:label ?endCategoryLabel .
      } ORDER BY ?endCategoryLabel".

(** Lines 174-186: all stores. *)
Definition getStores : string :=
  "
    PREFIX : <http://www.semanticweb.org/andrej/ontologies/2025/7/products-ontology/>
    PREFIX rdfs: <http://www.w3.org/2000/01/rdf-schema#>
    
    SELECT DISTINCT ?storeLabel WHERE {
      ?store a :Store ;
             rdfs:label ?storeLabel .
    }
    ORDER BY ?storeLabel
  ".

End ApiService.


(** ** tech-data.component.ts *)

Module TechDataComponent.

(** One cell of a binding: [{ type, value }]. *)
Record Term := { type : string; value : string }.

(** Lines 9-14: a binding maps variable names to cells. *)
Abbreviation SparqlBinding := (gmap string Term).

(** The body of a SPARQL JSON response, [{ results: { bindings } }]. *)
Record Response := { bindings : list SparqlBinding }.

(** What an HTTP observable delivers: one response, or an error. *)
Inductive HttpOutcome := HttpOk (response : Response) | HttpError.

(** Lines 53-58. *)
Record Dropdowns := { category : bool; sub : bool; end_ : bool; store : bool }.

Inductive DropdownType := TCategory | TSub | TEnd | TStore.

(** Lines 24-58: the fields of the component. *)
Record State := {
  categories : list string;
  subCategories : list string;
  endCategories : list string;
  stores : list string;
  selectedCategories : list string;
  selectedSubCategories : list string;
  selectedEndCategories : list string;
  selectedStores : list string;
  minPrice : option number;
  maxPrice : option number;
  minDiscount : option number;
  maxDiscount : option number;
  tableData : list SparqlBinding;
  isLoading : bool;
  error : option string;
  pageSize : number;
  currentPage : number;
  totalPages : number;
  dropdownOpen : Dropdowns
}.

(** Lines 25-58: the field initialisers. *)
Definition initial : State := {|
  categories := []; subCategories := []; endCategories := []; stores := [];
  selectedCategories := []; selectedSubCategories := [];
  selectedEndCategories := []; selectedStores := [];
  minPrice := None; maxPrice := None; minDiscount := None; maxDiscount := None;
  tableData := []; isLoading := true; error := None;
  pageSize := Fin 30; currentPage := Fin 1; totalPages := Fin 1;
  dropdownOpen := {| category := false; sub := false; end_ := false; store := false |}
|}.

(** Assignments [this.f = v], one per assigned field. *)
Definition set_categories (v : list string) (s : State) : State :=
  {| categories := v; subCategories := subCategories s;
    endCategories := endCategories s; stores := stores s;
    selectedCategories := selectedCategories s;
    selectedSubCategories := selectedSubCategories s;
    selectedEndCategories := selectedEndCategories s;
    selectedStores := selectedStores s; minPrice := minPrice s; maxPrice := maxPrice s;
    minDiscount := minDiscount s; maxDiscount := maxDiscount s;
    tableData := tableData s; isLoading := isLoading s; error := error s;
    pageSize := pageSize s; currentPage := currentPage s; totalPages := totalPages s;
    dropdownOpen := dropdownOpen s |}.

Definition set_subCategories (v : list string) (s : State) : State :=
  {| categories := categories s; subCategories := v; endCategories := endCategories s;
    stores := stores s; selectedCategories := selectedCategories s;
    selectedSubCategories := selectedSubCategories s;
    selectedEndCategories := selectedEndCategories s;
    selectedStores := selectedStores s; minPrice := minPrice s; maxPrice := maxPrice s;
    minDiscount := minDiscount s; maxDiscount := maxDiscount s;
    tableData := tableData s; isLoading := isLoading s; error := error s;
    pageSize := pageSize s; currentPage := currentPage s; totalPages := totalPages s;
    dropdownOpen := dropdownOpen s |}.

Definition set_endCategories (v : list string) (s : State) : State :=
  {| categories := categories s; subCategories := subCategories s; endCategories := v;
    stores := stores s; selectedCategories := selectedCategories s;
    selectedSubCategories := selectedSubCategories s;
    selectedEndCategories := selectedEndCategories s;
    selectedStores := selectedStores s; minPrice := minPrice s; maxPrice := maxPrice s;
    minDiscount := minDiscount s; maxDiscount := maxDiscount s;
    tableData := tableData s; isLoading := isLoading s; error := error s;
    pageSize := pageSize s; currentPage := currentPage s; totalPages := totalPages s;
    dropdownOpen := dropdownOpen s |}.

Definition set_stores (v : list string) (s : State) : State :=
  {| categories := categories s; subCategories := subCategories s;
    endCategories := endCategories s; stores := v;
    selectedCategories := selectedCategories s;
    selectedSubCategories := selectedSubCategories s;
    selectedEndCategories := selectedEndCategories s;
    selectedStores := selectedStores s; minPrice := minPrice s; maxPrice := maxPrice s;
    minDiscount := minDiscount s; maxDiscount := maxDiscount s;
    tableData := tableData s; isLoading := isLoading s; error := error s;
    pageSize := pageSize s; currentPage := currentPage s; totalPages := totalPages s;
    dropdownOpen := dropdownOpen s |}.

Definition set_selectedCategories (v : list string) (s : State) : State :=
  {| categories := categories s; subCategories := subCategories s;
    endCategories := endCategories s; stores := stores s; selectedCategories := v;
    selectedSubCategories := selectedSubCategories s;
    selectedEndCategories := selectedEndCategories s;
    selectedStores := selectedStores s; minPrice := minPrice s; maxPrice := maxPrice s;
    minDiscount := minDiscount s; maxDiscount := maxDiscount s;
    tableData := tableData s; isLoading := isLoading s; error := error s;
    pageSize := pageSize s; currentPage := currentPage s; totalPages := totalPages s;
    dropdownOpen := dropdownOpen s |}.

Definition set_selectedSubCategories (v : list string) (s : State) : State :=
  {| categories := categories s; subCategories := subCategories s;
    endCategories := endCategories s; stores := stores s;
    selectedCategories := selectedCategories s; selectedSubCategories := v;
    selectedEndCategories := selectedEndCategories s;
    selectedStores := selectedStores s; minPrice := minPrice s; maxPrice := maxPrice s;
    minDiscount := minDiscount s; maxDiscount := maxDiscount s;
    tableData := tableData s; isLoading := isLoading s; error := error s;
    pageSize := pageSize s; currentPage := currentPage s; totalPages := totalPages s;
    dropdownOpen := dropdownOpen s |}.

Definition set_selectedEndCategories (v : list string) (s : State) : State :=
  {| categories := categories s; subCategories := subCategories s;
    endCategories := endCategories s; stores := stores s;
    selectedCategories := selectedCategories s;
    selectedSubCategories := selectedSubCategories s; selectedEndCategories := v;
    selectedStores := selectedStores s; minPrice := minPrice s; maxPrice := maxPrice s;
    minDiscount := minDiscount s; maxDiscount := maxDiscount s;
    tableData := tableData s; isLoading := isLoading s; error := error s;
    pageSize := pageSize s; currentPage := currentPage s; totalPages := totalPages s;
    dropdownOpen := dropdownOpen s |}.

Definition set_selectedStores (v : list string) (s : State) : State :=
  {| categories := categories s; subCategories := subCategories s;
    endCategories := endCategories s; stores := stores s;
    selectedCategories := selectedCategories s;
    selectedSubCategories := selectedSubCategories s;
    selectedEndCategories := selectedEndCategories s; selectedStores := v;
    minPrice := minPrice s; maxPrice := maxPrice s; minDiscount := minDiscount s;
    maxDiscount := maxDiscount s; tableData := tableData s; isLoading := isLoading s;
    error := error s; pageSize := pageSize s; currentPage := currentPage s;
    totalPages := totalPages s; dropdownOpen := dropdownOpen s |}.

Definition set_minPrice (v : option number) (s : State) : State :=
  {| categories := categories s; subCategories := subCategories s;
    endCategories := endCategories s; stores := stores s;
    selectedCategories := selectedCategories s;
    selectedSubCategories := selectedSubCategories s;
    selectedEndCategories := selectedEndCategories s;
    selectedStores := selectedStores s; minPrice := v; maxPrice := maxPrice s;
    minDiscount := minDiscount s; maxDiscount := maxDiscount s;
    tableData := tableData s; isLoading := isLoading s; error := error s;
    pageSize := pageSize s; currentPage := currentPage s; totalPages := totalPages s;
    dropdownOpen := dropdownOpen s |}.

Definition set_maxPrice (v : option number) (s : State) : State :=
  {| categories := categories s; subCategories := subCategories s;
    endCategories := endCategories s; stores := stores s;
    selectedCategories := selectedCategories s;
    selectedSubCategories := selectedSubCategories s;
    selectedEndCategories := selectedEndCategories s;
    selectedStores := selectedStores s; minPrice := minPrice s; maxPrice := v;
    minDiscount := minDiscount s; maxDiscount := maxDiscount s;
    tableData := tableData s; isLoading := isLoading s; error := error s;
    pageSize := pageSize s; currentPage := currentPage s; totalPages := totalPages s;
    dropdownOpen := dropdownOpen s |}.

Definition set_minDiscount (v : option number) (s : State) : State :=
  {| categories := categories s; subCategories := subCategories s;
    endCategories := endCategories s; stores := stores s;
    selectedCategories := selectedCategories s;
    selectedSubCategories := selectedSubCategories s;
    selectedEndCategories := selectedEndCategories s;
    selectedStores := selectedStores s; minPrice := minPrice s; maxPrice := maxPrice s;
    minDiscount := v; maxDiscount := maxDiscount s; tableData := tableData s;
    isLoading := isLoading s; error := error s; pageSize := pageSize s;
    currentPage := currentPage s; totalPages := totalPages s;
    dropdownOpen := dropdownOpen s |}.

Definition set_maxDiscount (v : option number) (s : State) : State :=
  {| categories := categories s; subCategories := subCategories s;
    endCategories := endCategories s; stores := stores s;
    selectedCategories := selectedCategories s;
    selectedSubCategories := selectedSubCategories s;
    selectedEndCategories := selectedEndCategories s;
    selectedStores := selectedStores s; minPrice := minPrice s; maxPrice := maxPrice s;
    minDiscount := minDiscount s; maxDiscount := v; tableData := tableData s;
    isLoading := isLoading s; error := error s; pageSize := pageSize s;
    currentPage := currentPage s; totalPages := totalPages s;
    dropdownOpen := dropdownOpen s |}.

Definition set_tableData (v : list SparqlBinding) (s : State) : State :=
  {| categories := categories s; subCategories := subCategories s;
    endCategories := endCategories s; stores := stores s;
    selectedCategories := selectedCategories s;
    selectedSubCategories := selectedSubCategories s;
    selectedEndCategories := selectedEndCategories s;
    selectedStores := selectedStores s; minPrice := minPrice s; maxPrice := maxPrice s;
    minDiscount := minDiscount s; maxDiscount := maxDiscount s; tableData := v;
    isLoading := isLoading s; error := error s; pageSize := pageSize s;
    currentPage := currentPage s; totalPages := totalPages s;
    dropdownOpen := dropdownOpen s |}.

Definition set_isLoading (v : bool) (s : State) : State :=
  {| categories := categories s; subCategories := subCategories s;
    endCategories := endCategories s; stores := stores s;
    selectedCategories := selectedCategories s;
    selectedSubCategories := selectedSubCategories s;
    selectedEndCategories := selectedEndCategories s;
    selectedStores := selectedStores s; minPrice := minPrice s; maxPrice := maxPrice s;
    minDiscount := minDiscount s; maxDiscount := maxDiscount s;
    tableData := tableData s; isLoading := v; error := error s; pageSize := pageSize s;
    currentPage := currentPage s; totalPages := totalPages s;
    dropdownOpen := dropdownOpen s |}.

Definition set_error (v : option string) (s : State) : State :=
  {| categories := categories s; subCategories := subCategories s;
    endCategories := endCategories s; stores := stores s;
    selectedCategories := selectedCategories s;
    selectedSubCategories := selectedSubCategories s;
    selectedEndCategories := selectedEndCategories s;
    selectedStores := selectedStores s; minPrice := minPrice s; maxPrice := maxPrice s;
    minDiscount := minDiscount s; maxDiscount := maxDiscount s;
    tableData := tableData s; isLoading := isLoading s; error := v;
    pageSize := pageSize s; currentPage := currentPage s; totalPages := totalPages s;
    dropdownOpen := dropdownOpen s |}.

Definition set_currentPage (v : number) (s : State) : State :=
  {| categories := categories s; subCategories := subCategories s;
    endCategories := endCategories s; stores := stores s;
    selectedCategories := selectedCategories s;
    selectedSubCategories := selectedSubCategories s;
    selectedEndCategories := selectedEndCategories s;
    selectedStores := selectedStores s; minPrice := minPrice s; maxPrice := maxPrice s;
    minDiscount := minDiscount s; maxDiscount := maxDiscount s;
    tableData := tableData s; isLoading := isLoading s; error := error s;
    pageSize := pageSize s; currentPage := v; totalPages := totalPages s;
    dropdownOpen := dropdownOpen s |}.

Definition set_totalPages (v : number) (s : State) : State :=
  {| categories := categories s; subCategories := subCategories s;
    endCategories := endCategories s; stores := stores s;
    selectedCategories := selectedCategories s;
    selectedSubCategories := selectedSubCategories s;
    selectedEndCategories := selectedEndCategories s;
    selectedStores := selectedStores s; minPrice := minPrice s; maxPrice := maxPrice s;
    minDiscount := minDiscount s; maxDiscount := maxDiscount s;
    tableData := tableData s; isLoading := isLoading s; error := error s;
    pageSize := pageSize s; currentPage := currentPage s; totalPages := v;
    dropdownOpen := dropdownOpen s |}.

Definition set_dropdownOpen (v : Dropdowns) (s : State) : State :=
  {| categories := categories s; subCategories := subCategories s;
    endCategories := endCategories s; stores := stores s;
    selectedCategories := selectedCategories s;
    selectedSubCategories := selectedSubCategories s;
    selectedEndCategories := selectedEndCategories s;
    selectedStores := selectedStores s; minPrice := minPrice s; maxPrice := maxPrice s;
    minDiscount := minDiscount s; maxDiscount := maxDiscount s;
    tableData := tableData s; isLoading := isLoading s; error := error s;
    pageSize := pageSize s; currentPage := currentPage s; totalPages := totalPages s;
    dropdownOpen := v |}.


(** A subscription started by a handler: the callback that will receive the
    result, and the queries posted for it (several under [forkJoin]). *)
Inductive Callback := OnCategories | OnStores | OnSubCategories | OnEndCategories | OnGraphData.

Record Subscription := { callback : Callback; requests : list string }.

(** A handler leaves a state and the subscriptions it started. *)
Definition Handled : Type := State * list Subscription.

(** Run [g] after [f], collecting the subscriptions of both. *)
Definition and_then (f g : State -> Handled) (s : State) : Handled :=
  let '(s1, r1) := f s in
  let '(s2, r2) := g s1 in
  (s2, r1 ++ r2).

(** [response.results.bindings.map(b => b[key].value)]; [None] when some
    binding lacks [key], where the source throws a [TypeError]. *)
Definition labels (key : string) (response : Response) : option (list string) :=
  mapM (fun b : SparqlBinding => value <$> b !! key) (bindings response).

(** Lines 70-81. *)
Definition loadInitialCategories (s : State) : Handled :=
  (s, [ {| callback := OnCategories; requests := [ApiService.getCategories] |} ]).

Definition loadInitialCategories_next (response : Response) (s : State) : Completion State :=
  match labels "categoryLabel" response with
  | Some ls => Normal (set_categories ls s)
  | None => Throw TypeError s
  end.

Definition loadInitialCategories_error (s : State) : Completion State :=
  Normal (set_error (Some "Could not load categories.") s).

(** Lines 83-93. *)
Definition loadStores (s : State) : Handled :=
  (s, [ {| callback := OnStores; requests := [ApiService.getStores] |} ]).

Definition loadStores_next (response : Response) (s : State) : Completion State :=
  match labels "storeLabel" response with
  | Some ls => Normal (set_stores ls s)
  | None => Throw TypeError s
  end.

Definition loadStores_error (s : State) : Completion State :=
  Normal (set_error (Some "Could not load stores.") s).

(** Lines 96-108. *)
Definition onDropdownToggle (t : DropdownType) (s : State) : State :=
  let d := dropdownOpen s in
  let d := {| category := if t is TCategory then category d else false;
              sub := if t is TSub then sub d else false;
              end_ := if t is TEnd then end_ d else false;
              store := if t is TStore then store d else false |} in
  let d := match t with
           | TCategory => {| category := negb (category d); sub := sub d; end_ := end_ d; store := store d |}
           | TSub => {| category := category d; sub := negb (sub d); end_ := end_ d; store := store d |}
           | TEnd => {| category := category d; sub := sub d; end_ := negb (end_ d); store := store d |}
           | TStore => {| category := category d; sub := sub d; end_ := end_ d; store := negb (store d) |}
           end in
  set_dropdownOpen d s.

(** Lines 133-138. *)
Definition closeAllDropdowns (s : State) : State :=
  set_dropdownOpen {| category := false; sub := false; end_ := false; store := false |} s.

(** Lines 110-130; what the handler reads from the DOM is its input. *)
Definition onDocumentClick (target isInsideComponent isDropdownElement isCheckboxOrLabel : bool)
    (s : State) : State :=
  if target then
    if negb isInsideComponent || (negb isDropdownElement && negb isCheckboxOrLabel)
    then closeAllDropdowns s else s
  else s.

(** Lines 170-195. *)
Definition loadSubCategories (s : State) : Handled :=
  let s := set_subCategories [] s in
  let s := set_selectedSubCategories [] s in
  let s := set_endCategories [] s in
  let s := set_selectedEndCategories [] s in
  if (length (selectedCategories s) =? 0)%nat then (s, [])
  else
    (s, [ {| callback := OnSubCategories;
             requests := map ApiService.getSubCategories (selectedCategories s) |} ]).

(** Lines 183-186: the pipe applied to each lookup. *)
Definition subCategoryObservable (o : Notification Response) : list string :=
  catchError_of [] (rx_map (labels "subCategoryLabel") o).

(** Lines 190-194: the subscriber of the joined lookups. *)
Definition loadSubCategories_next (results : list (list string)) (s : State) : Completion State :=
  let allSubCategories := flat results in
  Normal (set_subCategories (Set_spread allSubCategories) s).

(** Lines 144-154. *)
Definition onCategoryChange (category : string) (isChecked : bool) (s : State) : Handled :=
  let s :=
    if isChecked then set_selectedCategories (selectedCategories s ++ [category]) s
    else set_selectedCategories (filter (fun c => c ≠ category) (selectedCategories s)) s in
  loadSubCategories s.

(** Lines 156-164. *)
Definition onStoreChange (store : string) (isChecked : bool) (s : State) : Handled :=
  let s :=
    if isChecked then set_selectedStores (selectedStores s ++ [store]) s
    else set_selectedStores (filter (fun x => x ≠ store) (selectedStores s)) s in
  (s, []).

(** Lines 214-233. *)
Definition loadEndCategories (s : State) : Handled :=
  let s := set_endCategories [] s in
  let s := set_selectedEndCategories [] s in
  if (length (selectedSubCategories s) =? 0)%nat then (s, [])
  else
    (s, [ {| callback := OnEndCategories;
             requests := map ApiService.getEndCategories (selectedSubCategories s) |} ]).

(** Lines 223-226. *)
Definition endCategoryObservable (o : Notification Response) : list string :=
  catchError_of [] (rx_map (labels "endCategoryLabel") o).

(** Lines 229-232. *)
Definition loadEndCategories_next (results : list (list string)) (s : State) : Completion State :=
  let allEndCategories := flat results in
  Normal (set_endCategories (Set_spread allEndCategories) s).

(** Lines 200-209. *)
Definition onSubCategoryChange (subCategory : string) (isChecked : bool) (s : State) : Handled :=
  let s :=
    if isChecked then set_selectedSubCategories (selectedSubCategories s ++ [subCategory]) s
    else set_selectedSubCategories (filter (fun x => x ≠ subCategory) (selectedSubCategories s)) s in
  loadEndCategories s.

(** Lines 238-246. *)
Definition onEndCategoryChange (endCategory : string) (isChecked : bool) (s : State) : Handled :=
  let s :=
    if isChecked then set_selectedEndCategories (selectedEndCategories s ++ [endCategory]) s
    else set_selectedEndCategories (filter (fun e => e ≠ endCategory) (selectedEndCategories s)) s in
  (s, []).

(** Lines 251-268. *)
Definition removeChip (t : DropdownType) (v : string) (s : State) : Handled :=
  match t with
  | TCategory =>
      loadSubCategories (set_selectedCategories (filter (fun c => c ≠ v) (selectedCategories s)) s)
  | TSub =>
      loadEndCategories (set_selectedSubCategories (filter (fun x => x ≠ v) (selectedSubCategories s)) s)
  | TEnd =>
      (set_selectedEndCategories (filter (fun e => e ≠ v) (selectedEndCategories s)) s, [])
  | TStore =>
      (set_selectedStores (filter (fun x => x ≠ v) (selectedStores s)) s, [])
  end.

(** Lines 281-297: the synchronous part of [fetchData]. *)
Definition fetchData (s : State) : Handled :=
  let s := set_isLoading true s in
  let s := set_error None s in
  let offset := JS.mul (JS.sub (currentPage s) (Fin 1)) (pageSize s) in
  (s, [ {| callback := OnGraphData;
           requests := [ ApiService.getGraphData number Number_toString
                           (pageSize s) offset
                           (selectedCategories s) (selectedSubCategories s) (selectedEndCategories s)
                           (minPrice s) (maxPrice s) (minDiscount s) (maxDiscount s)
                           (selectedStores s) ] |} ]).

(** Lines 298-302: the [next] callback. [this.tableData[0]] is [undefined]
    on an empty array and reading ['totalCount'] of it throws; so does
    reading [.value] of a missing cell. *)
Definition fetchData_next (response : Response) (s : State) : Completion State :=
  let s := set_tableData (bindings response) s in
  match tableData s !! 0%nat with
  | None => Throw TypeError s
  | Some row =>
      match row !! "totalCount" with
      | None => Throw TypeError s
      | Some cell =>
          let s := set_totalPages
                     (or_else (Math_ceil_div (Number_of_string (value cell)) (pageSize s)) (Fin 1)) s in
          Normal (set_isLoading false s)
      end
  end.

(** Lines 303-307: the [error] callback. *)
Definition fetchData_error (s : State) : Completion State :=
  let s := set_error (Some "Failed to fetch data from GraphDB. Please try again.") s in
  Normal (set_isLoading false s).

(** Lines 273-276. *)
Definition applyFilters (s : State) : Handled :=
  fetchData (set_currentPage (Fin 1) s).

(** Lines 312-317. *)
Definition nextPage (s : State) : Handled :=
  if lt (currentPage s) (totalPages s)
  then fetchData (set_currentPage (add (currentPage s) (Fin 1)) s)
  else (s, []).

(** Lines 319-324. *)
Definition prevPage (s : State) : Handled :=
  if gt (currentPage s) (Fin 1)
  then fetchData (set_currentPage (JS.sub (currentPage s) (Fin 1)) s)
  else (s, []).

(** Lines 326-333; [input_value] is [event.target.value]. *)
Definition goToPage (input_value : string) (s : State) : Handled :=
  let page := Number_of_string input_value in
  let page := if isNaN page || lt page (Fin 1) then Fin 1 else page in
  let page := if gt page (totalPages s) then totalPages s else page in
  fetchData (set_currentPage page s).

(** Lines 62-66. *)
Definition ngOnInit : State -> Handled :=
  and_then loadInitialCategories (and_then loadStores fetchData).

(** *** The component as a transition system

    An event is a user action, a template binding, or the arrival of the
    result of a subscription. Arrivals are not tied to the request that
    caused them: any result may arrive at any time, which covers every
    interleaving of overlapping requests. *)

(** What [subscribe({ next, error })] does with a notification. *)
Definition subscribe (next : Response -> State -> Completion State)
    (error : State -> Completion State) (o : Notification Response) (s : State) : Completion State :=
  match o with
  | Next response => next response s
  | Errored => error s
  end.

Inductive Event :=
| NgOnInit
| CategoriesArrived (o : Notification Response)
| StoresArrived (o : Notification Response)
| DropdownToggle (t : DropdownType)
| DocumentClick (target isInsideComponent isDropdownElement isCheckboxOrLabel : bool)
| CategoryChange (category : string) (isChecked : bool)
| StoreChange (store : string) (isChecked : bool)
| SubCategoryChange (subCategory : string) (isChecked : bool)
| EndCategoryChange (endCategory : string) (isChecked : bool)
| RemoveChip (t : DropdownType) (v : string)
| BoundsInput (minPrice maxPrice minDiscount maxDiscount : option number)
| ApplyFilters
| NextPage
| PrevPage
| GoToPage (input_value : string)
| SubCategoriesJoined (outcomes : list (Notification Response))
| EndCategoriesJoined (outcomes : list (Notification Response))
| GraphDataArrived (o : Notification Response).

(** The state after an event; an exception thrown by a callback is reported
    by the runtime and leaves the state of the throw. *)
Definition handle (e : Event) (s : State) : State :=
  match e with
  | NgOnInit => (ngOnInit s).1
  | CategoriesArrived o =>
      state_of (subscribe loadInitialCategories_next loadInitialCategories_error o s)
  | StoresArrived o => state_of (subscribe loadStores_next loadStores_error o s)
  | DropdownToggle t => onDropdownToggle t s
  | DocumentClick a b c d => onDocumentClick a b c d s
  | CategoryChange c b => (onCategoryChange c b s).1
  | StoreChange c b => (onStoreChange c b s).1
  | SubCategoryChange c b => (onSubCategoryChange c b s).1
  | EndCategoryChange c b => (onEndCategoryChange c b s).1
  | RemoveChip t v => (removeChip t v s).1
  | BoundsInput a b c d => set_minPrice a (set_maxPrice b (set_minDiscount c (set_maxDiscount d s)))
  | ApplyFilters => (applyFilters s).1
  | NextPage => (nextPage s).1
  | PrevPage => (prevPage s).1
  | GoToPage v => (goToPage v s).1
  | SubCategoriesJoined os => state_of (loadSubCategories_next (map subCategoryObservable os) s)
  | EndCategoriesJoined os => state_of (loadEndCategories_next (map endCategoryObservable os) s)
  | GraphDataArrived o => state_of (subscribe fetchData_next fetchData_error o s)
  end.

Inductive reachable : State -> Prop :=
| reachable_initial : reachable initial
| reachable_handle e s : reachable s -> reachable (handle e s).

End TechDataComponent.

Import TechDataComponent.

(** * Vocabulary of the properties *)

(** The category filter over one set of labels: the two triple patterns
    and an [IN] test over exactly the labels given. *)
Definition categoryFilterOver (labels : list string) : string :=
  "
        ?product :hasCategory ?cat .
        ?cat rdfs:label ?catName .
      FILTER(?catName IN (" +:+ quotedValues labels +:+ "))".

(** The label holds no double quote: the contract under which a quoted
    label can be told apart from its neighbours. *)
Fixpoint quote_free (s : string) : bool :=
  match s with
  | EmptyString => true
  | String c s' => negb (Ascii.eqb c (Ascii.ascii_of_nat 34)) && quote_free s'
  end.

(** [t] occurs in [s]. *)
Definition occurs_in (t s : string) : Prop := ∃ pre post, s = pre +:+ t +:+ post.

(** The pieces of the paginated subquery around its interpolations. *)
Definition paginatedSelect : string :=
  "{
        SELECT ?product ?title ?store (GROUP_CONCAT(DISTINCT ?categoryLabel; SEPARATOR=" +:+ dquote +:+ " > " +:+ dquote +:+ ") AS ?fullCategory)
              ?regularPrice ?discountedPrice ?discountPercent ?url
        WHERE {
          ?product a :Product .
          OPTIONAL { ?product :hasTitle ?title . }
          OPTIONAL { ?product :soldBy [ rdfs:label ?store ] . }
          OPTIONAL { ?product :hasRegularPrice ?regularPrice . }
          OPTIONAL { ?product :hasDiscountedPrice ?discountedPrice . }
          OPTIONAL { ?product :hasDiscountPercent ?discountPercent . }
          OPTIONAL { ?product :hasUrl ?url . }
          OPTIONAL { ?product :hasCategory ?anyCat . ?anyCat rdfs:label ?categoryLabel . }

          ".

Definition fragmentSep : string :=
  "
          ".

Definition paginatedOrder : string :=
  "
        }
        GROUP BY ?product ?title ?store ?regularPrice ?discountedPrice ?discountPercent ?url
        ORDER BY ?title
        LIMIT ".

Definition offsetClause : string :=
  "
        OFFSET ".

Definition subqueryClose : string :=
  "
      }".

(** The paginated subquery of the listing, braces included, as a function of
    the three filter fragments and of the rendered window. *)
Definition paginatedSubquery (categoryFilters storeFilters priceDiscountFilters limit offset : string) : string :=
  paginatedSelect +:+ categoryFilters +:+ fragmentSep +:+ storeFilters +:+ fragmentSep +:+
  priceDiscountFilters +:+ paginatedOrder +:+ limit +:+ offsetClause +:+ offset +:+ subqueryClose.

(** The pieces of the count subquery around its interpolations. *)
Definition countSelect : string :=
  "{
        SELECT (COUNT(DISTINCT ?product) AS ?totalCount)
        WHERE {
          ?product a :Product .
          OPTIONAL { ?product :hasRegularPrice ?regularPrice . }
          OPTIONAL { ?product :hasDiscountPercent ?discountPercent . }
          OPTIONAL { ?product :hasCategory ?cat . ?cat rdfs:label ?catName . }
          OPTIONAL { ?product :soldBy ?storeNode . ?storeNode rdfs:label ?storeName . }

          ".

Definition countClose : string :=
  "
        }
      }".

(** The count subquery, braces included, as a function of the three filter
    fragments. *)
Definition countSubquery (categoryFilters storeFilters priceDiscountFilters : string) : string :=
  countSelect +:+ categoryFilters +:+ fragmentSep +:+ storeFilters +:+ fragmentSep +:+
  priceDiscountFilters +:+ countClose.

(** No category is selected at any level and the two dependent levels offer
    no option. *)
Definition category_levels_empty (s : State) : Prop :=
  selectedCategories s = [] ∧
  subCategories s = [] ∧ selectedSubCategories s = [] ∧
  endCategories s = [] ∧ selectedEndCategories s = [].

(** Arrivals of lookup results at a join: each pairs the position of a
    lookup with what it delivered. They are consistent with [outcomes] when
    each is the outcome of its lookup, and complete when every one of the
    [n] lookups has delivered. *)
Definition consistent {A} (arrivals : list (nat * A)) (outcomes : list A) : Prop :=
  ∀ i o, (i, o) ∈ arrivals -> outcomes !! i = Some o.

Definition complete {A} (arrivals : list (nat * A)) (n : nat) : Prop :=
  ∀ i, i < n -> i ∈ arrivals.*1.

(** The values found under [key] in the rows of a response, row by row; none
    as soon as a row has no cell under [key]. *)
Fixpoint values_under (key : string) (rows : list SparqlBinding) : option (list string) :=
  match rows with
  | [] => Some []
  | row :: rows =>
      match row !! key, values_under key rows with
      | Some cell, Some vs => Some (value cell :: vs)
      | _, _ => None
      end
  end.

(** What one lookup contributes to the options of a level: the values under
    [key] of the rows of its response; nothing when a row lacks the key and
    nothing when the lookup failed. *)
Definition contribution (key : string) (o : Notification Response) : list string :=
  match o with
  | Next response => default [] (values_under key (bindings response))
  | Errored => []
  end.

(** The response of a lookup that answers the given labels under [key], one
    row each. *)
Definition labelled (key : string) (ls : list string) : Response :=
  {| bindings := map (fun l => {[ key := {| type := "literal"; value := l |} ]}) ls |}.

(** The text around the two subqueries. *)
Definition queryProlog : string :=
  "
    PREFIX : <http://www.semanticweb.org/andrej/ontologies/2025/7/products-ontology/>
    PREFIX rdfs: <http://www.w3.org/2000/01/rdf-schema#>
    PREFIX xsd: <http://www.w3.org/2001/XMLSchema#>

    SELECT ?product ?title ?store ?fullCategory ?regularPrice ?discountedPrice ?discountPercent ?url ?totalCount
    WHERE {

      # --- Paginated data subquery ---
      ".

Definition queryInterlude : string :=
  "

      # --- Total count subquery ---
      ".

Definition queryEpilog : string :=
  "
    }".

(** One comparison line of the price and discount fragment, for a bound
    that may be absent. *)
Definition bound_line (head : string) (rendered : option string) : string :=
  match rendered with
  | Some r => head +:+ r +:+ ")" +:+ nl
  | None => EmptyString
  end.

(** Whether the dropdown of a kind is open, and how many are. *)
Definition is_open (t : DropdownType) (d : Dropdowns) : bool :=
  match t with
  | TCategory => category d
  | TSub => sub d
  | TEnd => end_ d
  | TStore => store d
  end.

Definition open_count (d : Dropdowns) : nat :=
  Nat.b2n (category d) + Nat.b2n (sub d) + Nat.b2n (end_ d) + Nat.b2n (store d).

(** A handler that starts no listing fetch. *)
Definition no_fetch (started : list Subscription) : Prop :=
  Forall (fun x => callback x ≠ OnGraphData) started.

(** The page state a toggle must not touch. *)
Definition same_listing (s s' : State) : Prop :=
  tableData s' = tableData s ∧ isLoading s' = isLoading s ∧ error s' = error s ∧
  pageSize s' = pageSize s ∧ currentPage s' = currentPage s ∧ totalPages s' = totalPages s.

(** A listing response whose row 0, if it has one with a count, carries a
    non-negative safe integer printed in decimal, as a [COUNT] does. *)
Definition counted (r : Response) : Prop :=
  ∀ row cell, bindings r !! 0%nat = Some row -> row !! "totalCount" = Some cell ->
    ∃ n : Z, (0 <= n)%Z ∧ safe n ∧ value cell = Number_toString (Fin n).

(** The events under which the page numbers stay integers: a listing
    response is counted, and the text typed into the page field is one
    [Number_reads] covers (an integer, an infinity, or no number). *)
Definition counted_event (e : Event) : Prop :=
  match e with
  | GraphDataArrived (Next r) => counted r
  | GoToPage input_value => ∃ n, Number_reads input_value n
  | _ => True
  end.

(** The states reached from the initial one through such events. *)
Inductive reachable_counted : State -> Prop :=
| reachable_counted_initial : reachable_counted initial
| reachable_counted_handle e s :
    reachable_counted s -> counted_event e -> reachable_counted (handle e s).

(** Page size 30, and the current page and the page count integers from 1
    whose offset at that page size is a safe integer. *)
Definition page_in_range (z : Z) : Prop := (1 <= z)%Z ∧ safe ((z - 1) * 30).

Definition pages_from_one (s : State) : Prop :=
  pageSize s = Fin 30 ∧
  ∃ cp tp : Z, currentPage s = Fin cp ∧ totalPages s = Fin tp ∧
               page_in_range cp ∧ page_in_range tp.

(** The first occurrences of a list: every value once, at the place where it
    first occurs. This is the list a deduplicated union in arrival order is
    measured against. *)
Fixpoint first_occurrences (xs : list string) : list string :=
  match xs with
  | [] => []
  | x :: xs => x :: filter (λ y, y ≠ x) (first_occurrences xs)
  end.

(** * Properties *)

(** ** Strings *)

Lemma str_app_assoc (a b c : string) : (a +:+ b) +:+ c = a +:+ b +:+ c.
Proof.
  induction a as [|x a IH]; [reflexivity|].
  change (String x ((a +:+ b) +:+ c) = String x (a +:+ b +:+ c)). now rewrite IH.
Qed.

Lemma str_app_nil_r (a : string) : a +:+ EmptyString = a.
Proof.
  induction a as [|x a IH]; [reflexivity|].
  change (String x (a +:+ EmptyString) = String x a). now rewrite IH.
Qed.

(** Nest appends to the right; literals then agree by computation. *)
Ltac str_norm := rewrite ?str_app_assoc.

Lemma occurs_in_skip (t a b : string) : occurs_in t b -> occurs_in t (a +:+ b).
Proof. intros (pre & post & ->). exists (a +:+ pre), post. now rewrite str_app_assoc. Qed.

Lemma occurs_in_here (t post : string) : occurs_in t (t +:+ post).
Proof. now exists EmptyString, post. Qed.

Lemma str_app_cons (c : ascii) (a b : string) : String c a +:+ b = String c (a +:+ b).
Proof. reflexivity. Qed.

Lemma str_app_nil_l (b : string) : EmptyString +:+ b = b.
Proof. reflexivity. Qed.

(** A quote-free label ends at the first double quote. *)
Lemma quoted_split (x y r r' : string) :
  quote_free x = true -> quote_free y = true ->
  x +:+ dquote +:+ r = y +:+ dquote +:+ r' -> x = y ∧ r = r'.
Proof.
  revert y. unfold dquote.
  induction x as [|c x IH]; intros [|d y] Hx Hy; rewrite ?str_app_cons, ?str_app_nil_l; intros E.
  - now injection E.
  - injection E as <- _. cbn in Hy. discriminate.
  - injection E as -> _. cbn in Hx. discriminate.
  - injection E as -> E. cbn in Hx, Hy.
    apply andb_prop in Hx as [_ Hx]. apply andb_prop in Hy as [_ Hy].
    destruct (IH y Hx Hy E) as [-> ->]. split; reflexivity.
Qed.

(** The rendered [IN] list determines the labels it was rendered from: it is
    over exactly those labels, in their order. *)
Lemma quotedValues_inj (xs ys : list string) :
  Forall (fun x => quote_free x = true) xs ->
  Forall (fun y => quote_free y = true) ys ->
  quotedValues xs = quotedValues ys -> xs = ys.
Proof.
  unfold quotedValues, join. intros Hxs. revert ys.
  induction Hxs as [|x xs Hx Hxs IH]; intros ys Hys E.
  - destruct Hys as [|y [|y' ys] Hy Hys]; [reflexivity| |];
      cbn [map String.concat] in E; unfold quoted, dquote in E;
      rewrite ?str_app_cons, ?str_app_nil_l in E; discriminate.
  - destruct Hys as [|y ys Hy Hys].
    { destruct xs; cbn [map String.concat] in E; unfold quoted, dquote in E;
        rewrite ?str_app_cons, ?str_app_nil_l in E; discriminate. }
    assert (Hhead : ∀ (z : string) (zs : list string),
               String.concat "," (map quoted (z :: zs)) =
               dquote +:+ z +:+ dquote +:+
                 match zs with [] => EmptyString | _ => "," +:+ String.concat "," (map quoted zs) end).
    { intros z [|z' zs]; cbn [map String.concat]; unfold quoted; rewrite ?str_app_assoc.
      - now rewrite str_app_nil_r.
      - reflexivity. }
    rewrite !Hhead in E. unfold dquote at 1 3 in E.
    rewrite !str_app_cons, !str_app_nil_l in E. injection E as E.
    apply quoted_split in E as [-> E]; [|assumption..].
    f_equal. destruct xs as [|x' xs], ys as [|y' ys]; try reflexivity;
      rewrite ?str_app_cons, ?str_app_nil_l in E; try discriminate.
    injection E as E. apply IH; assumption.
Qed.

Lemma str_length_app (a b : string) :
  String.length (a +:+ b) = String.length a + String.length b.
Proof.
  induction a as [|c a IH]; [reflexivity|].
  rewrite str_app_cons. cbn [String.length]. now rewrite IH.
Qed.

Lemma str_app_inj_r (a b c : string) : a +:+ c = b +:+ c -> a = b.
Proof.
  revert b. induction a as [|x a IH]; intros [|y b] E.
  - reflexivity.
  - apply (f_equal String.length) in E. rewrite !str_length_app in E.
    cbn [String.length] in E. lia.
  - apply (f_equal String.length) in E. rewrite !str_length_app in E.
    cbn [String.length] in E. lia.
  - rewrite !str_app_cons in E. injection E as -> E. f_equal. now apply IH.
Qed.

(** The category filter determines the labels it is over. *)
Lemma categoryFilterOver_inj (xs ys : list string) :
  Forall (fun x => quote_free x = true) xs ->
  Forall (fun y => quote_free y = true) ys ->
  categoryFilterOver xs = categoryFilterOver ys -> xs = ys.
Proof.
  intros Hxs Hys E. unfold categoryFilterOver in E.
  apply (inj (String.append _)) in E. apply str_app_inj_r in E.
  now apply quotedValues_inj.
Qed.

(** ** The query text *)

Section QueryText.

Variable num : Type.
Variable toString : num -> string.

Lemma nonEmpty_cons {A} (x : A) (xs : list A) : nonEmpty (x :: xs) = true.
  Proof. reflexivity. Qed.

Lemma nonEmpty_true {A} (xs : list A) : xs ≠ [] -> nonEmpty xs = true.
  Proof. now destruct xs. Qed.

  (** Which labels the category filter is over: the most specific non-empty
      level decides. *)
Lemma categoryFilters_cases (cats subs ends : list string) :
    ApiService.categoryFilters cats subs ends =
      if nonEmpty ends then categoryFilterOver ends
      else if nonEmpty subs then categoryFilterOver subs
      else if nonEmpty cats then categoryFilterOver cats
      else EmptyString.
  Proof.
    unfold ApiService.categoryFilters, categoryFilterOver.
    destruct ends as [|e ends]; [destruct subs as [|u subs]; [destruct cats as [|c cats]|]|];
      rewrite ?nonEmpty_cons; cbn [nonEmpty length Nat.eqb negb orb join String.concat];
      str_norm; reflexivity.
  Qed.

  (** The listing query is the prolog, the paginated subquery, the
      interlude, the count subquery and the epilog, both subqueries over the
      same three fragments. *)
Lemma getGraphData_subqueries (limit offset : num) (cats subs ends : list string)
      (minPrice maxPrice minDiscount maxDiscount : option num) (stores : list string) :
    ApiService.getGraphData num toString limit offset cats subs ends
      minPrice maxPrice minDiscount maxDiscount stores =
    let cf := ApiService.categoryFilters cats subs ends in
    let sf := ApiService.storeFilters stores in
    let pf := ApiService.priceDiscountFilters num toString minPrice maxPrice minDiscount maxDiscount in
    queryProlog +:+ paginatedSubquery cf sf pf (toString limit) (toString offset) +:+
    queryInterlude +:+ countSubquery cf sf pf +:+ queryEpilog.
  Proof.
    cbv zeta. unfold ApiService.getGraphData, paginatedSubquery, countSubquery, paginatedSelect.
    str_norm. reflexivity.
  Qed.

  (** C1. The listing query applies exactly one category-filter branch, the
      most specific first: with end categories selected the filter is over
      exactly the end categories, whatever the categories and subcategories
      are; with no end category but subcategories selected it is over exactly
      the subcategories; with only categories selected it is over exactly the
      categories; with nothing selected no category filter is emitted. In
      each case the rendered query is the one of the deciding level alone.
      With only [Laptops] selected the query tests [?catName IN] over the
      quoted label [Laptops]. The filter over a set of labels is over no
      other set, as long as no label holds a double quote. *)
Theorem getGraphData_category_precedence
      (limit offset : num) (cats subs ends : list string)
      (minPrice maxPrice minDiscount maxDiscount : option num) (stores : list string) :
    let query c s e :=
      ApiService.getGraphData num toString limit offset c s e
        minPrice maxPrice minDiscount maxDiscount stores in
    (ends ≠ [] ->
       ApiService.categoryFilters cats subs ends = categoryFilterOver ends ∧
       query cats subs ends = query [] [] ends) ∧
    (ends = [] -> subs ≠ [] ->
       ApiService.categoryFilters cats subs ends = categoryFilterOver subs ∧
       query cats subs ends = query [] subs []) ∧
    (ends = [] -> subs = [] -> cats ≠ [] ->
       ApiService.categoryFilters cats subs ends = categoryFilterOver cats) ∧
    (ends = [] -> subs = [] -> cats = [] ->
       ApiService.categoryFilters cats subs ends = EmptyString) ∧
    occurs_in (ApiService.categoryFilters cats subs ends) (query cats subs ends) ∧
    occurs_in ("FILTER(?catName IN (" +:+ dquote +:+ "Laptops" +:+ dquote +:+ "))")
      (ApiService.getGraphData num toString limit offset ["Laptops"] [] []
         minPrice maxPrice minDiscount maxDiscount stores) ∧
    (∀ chosen other : list string,
       Forall (fun x => quote_free x = true) chosen ->
       Forall (fun x => quote_free x = true) other ->
       categoryFilterOver other = categoryFilterOver chosen -> other = chosen).
  Proof.
    intros query.
    assert (Hq : ∀ c s e c' s' e',
               ApiService.categoryFilters c s e = ApiService.categoryFilters c' s' e' ->
               query c s e = query c' s' e').
    { intros c s e c' s' e' H. unfold query, ApiService.getGraphData. now rewrite H. }
    split; [|split; [|split; [|split; [|split; [|split]]]]].
    - intros He. split; [|apply Hq]; rewrite !categoryFilters_cases, nonEmpty_true; auto.
    - intros -> Hs. split; [|apply Hq]; rewrite !categoryFilters_cases, (nonEmpty_true subs); auto.
    - intros -> -> Hc. rewrite categoryFilters_cases, (nonEmpty_true cats); auto.
    - intros -> -> ->. reflexivity.
    - unfold query. rewrite getGraphData_subqueries. cbv zeta. unfold paginatedSubquery. str_norm.
      do 2 apply occurs_in_skip. apply occurs_in_here.
    - rewrite getGraphData_subqueries. cbv zeta. unfold paginatedSubquery. str_norm.
      do 2 apply occurs_in_skip.
      exists "
        ?product :hasCategory ?cat .
        ?cat rdfs:label ?catName .
      ". eexists. str_norm. reflexivity.
    - intros chosen other Hc Ho. now apply categoryFilterOver_inj.
  Qed.

End QueryText.

Lemma getGraphData_category_precedence_witness :
  ["RTX 4090"] ≠ [] ∧
  ApiService.categoryFilters ["Laptops"] ["Gaming"] ["RTX 4090"] = categoryFilterOver ["RTX 4090"] ∧
  ApiService.getGraphData number Number_toString (Fin 30) (Fin 0)
    ["Laptops"] ["Gaming"] ["RTX 4090"] None None None None [] =
  ApiService.getGraphData number Number_toString (Fin 30) (Fin 0)
    [] [] ["RTX 4090"] None None None None [].
Proof.
  split; [discriminate|].
  apply (proj1 (getGraphData_category_precedence number Number_toString (Fin 30) (Fin 0)
                  ["Laptops"] ["Gaming"] ["RTX 4090"] None None None None [])).
  discriminate.
Defined.

(** C9. The count subquery of the listing query is built from the same
    filter predicates as the paginated subquery: the category, store and
    price/discount fragments interpolated into the one are the very strings
    interpolated into the other, for every filter input. *)
Theorem getGraphData_count_same_filters (num : Type) (toString : num -> string)
    (limit offset : num) (cats subs ends : list string)
    (minPrice maxPrice minDiscount maxDiscount : option num) (stores : list string) :
  ∃ cf sf pf : string,
    cf = ApiService.categoryFilters cats subs ends ∧
    sf = ApiService.storeFilters stores ∧
    pf = ApiService.priceDiscountFilters num toString minPrice maxPrice minDiscount maxDiscount ∧
    ApiService.getGraphData num toString limit offset cats subs ends
      minPrice maxPrice minDiscount maxDiscount stores =
    queryProlog +:+ paginatedSubquery cf sf pf (toString limit) (toString offset) +:+
    queryInterlude +:+ countSubquery cf sf pf +:+ queryEpilog.
Proof.
  eexists _, _, _. repeat split. apply getGraphData_subqueries.
Qed.

(** ** Numbers *)

Lemma Zceil_div_bounds (n p : Z) : (0 < p)%Z -> ((Zceil_div n p - 1) * p < n <= Zceil_div n p * p)%Z.
Proof.
  intros Hp. unfold Zceil_div.
  pose proof (Z.mul_div_le (- n) p Hp). pose proof (Z.mul_succ_div_gt (- n) p Hp). lia.
Qed.

Lemma Zceil_div_unique (n p c : Z) :
  (0 < p)%Z -> ((c - 1) * p < n <= c * p)%Z -> Zceil_div n p = c.
Proof.
  intros Hp Hc. pose proof (Zceil_div_bounds n p Hp). nia.
Qed.

(** A decimal numeral starts with a digit: it is neither empty, nor one of
    the infinities, nor signed. *)
Lemma Number_of_string_numeral (d : Decimal.uint) :
  d ≠ Decimal.Nil ->
  Number_of_string (NilEmpty.string_of_uint d) = Fin (Z.of_uint d).
Proof.
  intros Hd.
  assert (Hdig : digits (NilEmpty.string_of_uint d) = Fin (Z.of_uint d)).
  { unfold digits. replace (NilEmpty.string_of_uint d) with (NilZero.string_of_uint d)
      by now destruct d.
    now rewrite NilZero.usu. }
  rewrite <- Hdig. clear Hdig.
  destruct d; try congruence; cbn [NilEmpty.string_of_uint]; unfold Number_of_string;
    rewrite !bool_decide_eq_false_2 by discriminate; reflexivity.
Qed.

(** Reading back a printed integer gives the integer. *)
Lemma Number_of_string_toString (z : Z) : Number_of_string (Number_toString (Fin z)) = Fin z.
Proof.
  destruct z as [|q|q]; [reflexivity| |].
  - cbn [Number_toString Z.to_int NilZero.string_of_int].
    pose proof (DecimalPos.Unsigned.to_uint_nonnil q) as Hq.
    replace (NilZero.string_of_uint (Pos.to_uint q)) with (NilEmpty.string_of_uint (Pos.to_uint q))
      by now destruct (Pos.to_uint q).
    rewrite Number_of_string_numeral by assumption.
    f_equal. apply (DecimalZ.of_to (Z.pos q)).
  - cbn [Number_toString Z.to_int NilZero.string_of_int].
    pose proof (DecimalPos.Unsigned.to_uint_nonnil q) as Hq.
    replace (NilZero.string_of_uint (Pos.to_uint q)) with (NilEmpty.string_of_uint (Pos.to_uint q))
      by now destruct (Pos.to_uint q).
    assert (Hd : digits (NilEmpty.string_of_uint (Pos.to_uint q)) = Fin (Z.pos q)).
    { unfold digits. replace (NilEmpty.string_of_uint (Pos.to_uint q))
        with (NilZero.string_of_uint (Pos.to_uint q)) by now destruct (Pos.to_uint q).
      rewrite NilZero.usu by assumption. f_equal. apply (DecimalZ.of_to (Z.pos q)). }
    unfold Number_of_string. rewrite !bool_decide_eq_false_2; try discriminate.
    + now rewrite Hd.
    + destruct (Pos.to_uint q); try congruence; discriminate.
Qed.

(** On the texts it covers, [Number_of_string] gives the value read. *)
Lemma Number_of_string_digits (ds : string) (d : Decimal.uint) :
  NilZero.uint_of_string ds = Some d ->
  digits ds = Fin (Z.of_uint d) ∧ Number_of_string ds = Fin (Z.of_uint d) ∧
  ds ≠ "Infinity".
Proof.
  intros H. assert (Hd : digits ds = Fin (Z.of_uint d)) by (unfold digits; now rewrite H).
  split; [exact Hd|]. rewrite <- Hd.
  destruct ds as [|c rest]; [discriminate|].
  unfold NilZero.uint_of_string in H. cbn [NilEmpty.uint_of_string] in H.
  destruct (NilEmpty.uint_of_string rest) as [d0|]; [|discriminate].
  apply uint_of_char_spec in H.
  repeat (destruct H as [[-> _] | H]); [..| destruct H as [-> _]];
    (split; [unfold Number_of_string; rewrite !bool_decide_eq_false_2 by discriminate; reflexivity
            | discriminate]).
Qed.

Lemma digits_no_literal (c : ascii) (rest : string) :
  opens_literal c = false -> digits (String c rest) = NaN.
Proof.
  intros H. unfold digits, NilZero.uint_of_string. cbn [NilEmpty.uint_of_string].
  destruct (NilEmpty.uint_of_string rest) as [d|]; [|reflexivity].
  destruct c as [[|] [|] [|] [|] [|] [|] [|] [|]]; try discriminate H; reflexivity.
Qed.

Lemma Number_reads_sound (s : string) (n : number) :
  Number_reads s n -> Number_of_string s = n.
Proof.
  intros H.
  destruct H as [ | | | | ds d Hd _ | ds d Hd _ | ds d Hd _ | | | c rest Hc | c rest Hc | c rest Hc];
    try reflexivity.
  - now apply Number_of_string_digits.
  - destruct (Number_of_string_digits ds d Hd) as (Hdig & _ & Hne).
    unfold Number_of_string. rewrite !bool_decide_eq_false_2; try discriminate; [exact Hdig|].
    intros E. injection E as E. contradiction.
  - destruct (Number_of_string_digits ds d Hd) as (Hdig & _ & Hne).
    unfold Number_of_string. rewrite !bool_decide_eq_false_2; try discriminate;
      [now rewrite Hdig|]. intros E. injection E as E. contradiction.
  - unfold Number_of_string. rewrite !bool_decide_eq_false_2; try discriminate.
    + now rewrite digits_no_literal.
    + intros E. injection E as -> _. discriminate Hc.
  - unfold Number_of_string. rewrite !bool_decide_eq_false_2; try discriminate.
    + now rewrite digits_no_literal.
    + intros E. injection E as -> _. discriminate Hc.
  - assert (Ho : opens_literal c = false).
    { unfold no_numeral_start in Hc. destruct (opens_literal c); [|reflexivity].
      rewrite !andb_false_r in Hc; cbn in Hc. now rewrite ?andb_false_r in Hc. }
    rewrite <- (digits_no_literal c rest Ho).
    destruct c as [[|] [|] [|] [|] [|] [|] [|] [|]]; try discriminate Hc; try discriminate Ho;
      unfold Number_of_string; rewrite !bool_decide_eq_false_2 by discriminate; reflexivity.
Qed.

(** ** Pagination *)

(** C2 (the code at the empty page). When the listing comes back with no
    binding, the [next] callback stores the empty table and then throws a
    [TypeError] on row 0: the page count is not reset to 1, and the loading
    flag raised by [fetchData] is never cleared. *)
Theorem fetchData_next_empty_page_throws (s : State) :
  let s1 := (fetchData s).1 in
  let s2 := set_tableData [] s1 in
  fetchData_next {| bindings := [] |} s1 = Throw TypeError s2 ∧
  handle (GraphDataArrived (Next {| bindings := [] |})) s1 = s2 ∧
  isLoading s2 = true ∧ totalPages s2 = totalPages s ∧ error s2 = None.
Proof. cbv zeta. repeat split. Qed.

(** C3. For a count [n >= 0] printed in decimal in row 0 and a positive page
    size [p], both safe integers (below 2^53, where the conversion of the
    count and the rounded quotient of the doubles have the exact ceiling),
    the [next] callback completes normally and sets the page count to the
    ceiling of [n / p], and to 1 where that is 0: count 0 gives 1 page, count
    61 at page size 30 gives 3 pages. *)
Theorem fetchData_next_totalPages (s : State) (response : Response)
    (row : SparqlBinding) (cell : Term) (n p : Z) :
  pageSize s = Fin p -> (0 < p)%Z -> (0 <= n)%Z -> safe p -> safe n ->
  bindings response !! 0%nat = Some row ->
  row !! "totalCount" = Some cell ->
  value cell = Number_toString (Fin n) ->
  ∃ (s' : State) (c : Z),
    fetchData_next response s = Normal s' ∧
    ((c - 1) * p < n <= c * p)%Z ∧
    totalPages s' = Fin (Z.max 1 c) ∧
    (n = 0%Z -> totalPages s' = Fin 1) ∧
    (n = 61%Z -> p = 30%Z -> totalPages s' = Fin 3).
Proof.
  intros Hp Hpos Hn _ _ Hrow Hcell Hval.
  pose proof (Zceil_div_bounds n p Hpos) as Hc.
  assert (Hc0 : (0 <= Zceil_div n p)%Z) by nia.
  assert (Htp : or_else (Math_ceil_div (Number_of_string (value cell)) (pageSize s)) (Fin 1)
                = Fin (Z.max 1 (Zceil_div n p))).
  { rewrite Hval, Number_of_string_toString, Hp. cbn [Math_ceil_div].
    destruct (Z.eqb_spec p 0) as [->|_]; [lia|].
    unfold or_else. destruct (Zceil_div n p) as [|c|c] eqn:E; cbn [truthy]; f_equal; lia. }
  eexists _, (Zceil_div n p). split; [|split; [exact Hc|]].
  - unfold fetchData_next. cbn [tableData set_tableData pageSize]. rewrite Hrow, Hcell, Htp.
    reflexivity.
  - cbn [totalPages set_isLoading set_totalPages]. split; [reflexivity|]. split.
    + intros ->. rewrite (Zceil_div_unique 0 p 0) by lia. reflexivity.
    + intros -> ->. reflexivity.
Qed.

Lemma fetchData_next_totalPages_witness :
  let cell := {| type := "literal"; value := "61" |} in
  let row : SparqlBinding := {[ "totalCount" := cell ]} in
  let response := {| bindings := [row] |} in
  ∃ (s' : State) (c : Z),
    fetchData_next response initial = Normal s' ∧
    ((c - 1) * 30 < 61 <= c * 30)%Z ∧
    totalPages s' = Fin (Z.max 1 c) ∧
    (61%Z = 0%Z -> totalPages s' = Fin 1) ∧
    (61%Z = 61%Z -> 30%Z = 30%Z -> totalPages s' = Fin 3).
Proof.
  cbv zeta.
  apply (fetchData_next_totalPages initial _ {[ "totalCount" := {| type := "literal"; value := "61" |} ]}
           {| type := "literal"; value := "61" |} 61 30);
    [reflexivity | lia | lia | unfold safe; lia | unfold safe; lia
    | reflexivity | vm_compute; reflexivity | reflexivity].
Defined.

(** C4. For an integer current page [cp >= 1] and page size, with the page,
    the page size and the offset safe integers (below 2^53, where the
    subtraction and the product of the doubles are exact and print in plain
    decimal), the window of the query posted by [fetchData] starts at offset
    [(cp - 1) * pageSize], which is not negative: the query is the builder's
    at that offset and its text carries that offset after the limit. At page
    size 30 and page 3 the text reads offset 60. *)
Theorem fetchData_offset (s : State) (cp ps : Z) :
  currentPage s = Fin cp -> pageSize s = Fin ps -> (1 <= cp)%Z -> (0 <= ps)%Z ->
  safe cp -> safe ps -> safe ((cp - 1) * ps) ->
  ∃ (s' : State) (query : string),
    fetchData s = (s', [ {| callback := OnGraphData; requests := [query] |} ]) ∧
    query = ApiService.getGraphData number Number_toString (Fin ps) (Fin ((cp - 1) * ps))
              (selectedCategories s) (selectedSubCategories s) (selectedEndCategories s)
              (minPrice s) (maxPrice s) (minDiscount s) (maxDiscount s) (selectedStores s) ∧
    (0 <= (cp - 1) * ps)%Z ∧
    occurs_in (paginatedOrder +:+ Number_toString (Fin ps) +:+ offsetClause +:+
               Number_toString (Fin ((cp - 1) * ps)) +:+ subqueryClose) query ∧
    (ps = 30%Z -> cp = 3%Z -> occurs_in ("OFFSET 60" +:+ nl) query).
Proof.
  intros Hcp Hps Hge Hps0 _ _ _.
  eexists _, _. split; [reflexivity|].
  cbn [currentPage pageSize set_error set_isLoading selectedCategories selectedSubCategories
       selectedEndCategories minPrice maxPrice minDiscount maxDiscount selectedStores].
  rewrite Hcp, Hps. cbn [JS.sub JS.mul add neg]. replace (cp + - (1))%Z with (cp - 1)%Z by lia.
  split; [reflexivity|]. split; [nia|].
  rewrite getGraphData_subqueries. cbv zeta. unfold paginatedSubquery. str_norm. split.
  - do 7 apply occurs_in_skip.
    exists EmptyString. eexists. str_norm. reflexivity.
  - intros -> ->. do 9 apply occurs_in_skip.
    change (Number_toString (Fin ((3 - 1) * 30))) with "60".
    exists "
        ", ("      }" +:+ queryInterlude +:+
            countSubquery
              (ApiService.categoryFilters (selectedCategories s) (selectedSubCategories s)
                 (selectedEndCategories s))
              (ApiService.storeFilters (selectedStores s))
              (ApiService.priceDiscountFilters number Number_toString (minPrice s) (maxPrice s)
                 (minDiscount s) (maxDiscount s)) +:+
            queryEpilog).
    reflexivity.
Qed.

Lemma fetchData_offset_witness :
  let s := set_currentPage (Fin 3) initial in
  ∃ (s' : State) (query : string),
    fetchData s = (s', [ {| callback := OnGraphData; requests := [query] |} ]) ∧
    query = ApiService.getGraphData number Number_toString (Fin 30) (Fin ((3 - 1) * 30))
              [] [] [] None None None None [] ∧
    (0 <= (3 - 1) * 30)%Z ∧
    occurs_in (paginatedOrder +:+ Number_toString (Fin 30) +:+ offsetClause +:+
               Number_toString (Fin ((3 - 1) * 30)) +:+ subqueryClose) query ∧
    (30%Z = 30%Z -> 3%Z = 3%Z -> occurs_in ("OFFSET 60" +:+ nl) query).
Proof.
  cbv zeta.
  apply (fetchData_offset (set_currentPage (Fin 3) initial) 3 30);
    [reflexivity | reflexivity | lia | lia | unfold safe; lia | unfold safe; lia
    | unfold safe; lia].
Defined.

(** C7. When the listing fetch fails, the [error] callback completes
    normally, sets the error message and clears the loading flag; the table,
    the current page and the page count stay as they were, both with respect
    to the state the callback finds and to the state before [fetchData]. *)
Theorem fetchData_error_keeps_table (s : State) :
  let s1 := (fetchData s).1 in
  ∃ s2 : State,
    subscribe fetchData_next fetchData_error Errored s1 = Normal s2 ∧
    handle (GraphDataArrived Errored) s1 = s2 ∧
    error s2 = Some "Failed to fetch data from GraphDB. Please try again." ∧
    isLoading s2 = false ∧
    tableData s2 = tableData s1 ∧ currentPage s2 = currentPage s1 ∧ totalPages s2 = totalPages s1 ∧
    tableData s2 = tableData s ∧ currentPage s2 = currentPage s ∧ totalPages s2 = totalPages s.
Proof. cbv zeta. eexists. repeat split. Qed.

(** The two clamping steps of [goToPage] on a number. *)
Lemma clamp_range (n tp : number) :
  le (Fin 1) tp = true ->
  let page := if isNaN n || lt n (Fin 1) then Fin 1 else n in
  let page := if gt page tp then tp else page in
  le (Fin 1) page = true ∧ le page tp = true.
Proof.
  intros Htp. cbv zeta.
  destruct n as [| | |x], tp as [| | |t]; cbn in Htp |- *; try discriminate; auto;
    repeat match goal with
           | |- context [(?a <? ?b)%Z] => destruct (Z.ltb_spec a b); cbn
           | H : context [(?a <? ?b)%Z] |- _ => destruct (Z.ltb_spec a b); cbn in H
           end; try discriminate; try lia; auto.
Qed.




(** ** Cascading filters *)

(** C5. Toggling off the only selected top category, by its checkbox or by
    its chip, leaves no selected category, no subcategory option, no selected
    subcategory, no end-category option and no selected end category, and
    starts no lookup. *)
Theorem toggle_off_only_category (c : string) (s : State) :
  selectedCategories s = [c] ->
  (∃ s' : State, onCategoryChange c false s = (s', []) ∧ category_levels_empty s') ∧
  (∃ s' : State, removeChip TCategory c s = (s', []) ∧ category_levels_empty s').
Proof.
  intros Hsel.
  assert (Hf : filter (fun x => x ≠ c) (selectedCategories s) = []).
  { rewrite Hsel. cbn. case_decide; [congruence|reflexivity]. }
  split; unfold onCategoryChange, removeChip, loadSubCategories, category_levels_empty;
    cbn [selectedCategories set_selectedCategories set_subCategories set_selectedSubCategories
         set_endCategories set_selectedEndCategories];
    rewrite Hf; eexists; repeat split.
Qed.

Lemma toggle_off_only_category_witness :
  let s := (onCategoryChange "Laptops" true initial).1 in
  selectedCategories s = ["Laptops"] ∧
  (∃ s' : State, onCategoryChange "Laptops" false s = (s', []) ∧ category_levels_empty s') ∧
  (∃ s' : State, removeChip TCategory "Laptops" s = (s', []) ∧ category_levels_empty s').
Proof.
  cbv zeta. split; [reflexivity|].
  apply (toggle_off_only_category "Laptops" (onCategoryChange "Laptops" true initial).1).
  reflexivity.
Defined.

(** *** Sets *)

Lemma Set_fold_spec (xs acc : list string) :
  NoDup acc ->
  NoDup (fold_left Set_add xs acc) ∧
  ∀ x, x ∈ fold_left Set_add xs acc ↔ x ∈ acc ∨ x ∈ xs.
Proof.
  revert acc. induction xs as [|y xs IH]; intros acc Hacc; cbn [fold_left].
  - split; [exact Hacc|]. intros x. rewrite elem_of_nil. tauto.
  - assert (Hadd : NoDup (Set_add acc y) ∧ ∀ x, x ∈ Set_add acc y ↔ x ∈ acc ∨ x = y).
    { unfold Set_add. case_bool_decide as Hy.
      - split; [exact Hacc|]. intros x. split; [tauto|]. intros [?| ->]; assumption.
      - split.
        + apply NoDup_app. repeat split; [exact Hacc| |apply NoDup_singleton].
          intros x Hx ->%list_elem_of_singleton. contradiction.
        + intros x. now rewrite elem_of_app, list_elem_of_singleton. }
    destruct Hadd as [Hnd Hin]. destruct (IH _ Hnd) as [IH1 IH2].
    split; [exact IH1|]. intros x. rewrite IH2, Hin, elem_of_cons. tauto.
Qed.

Lemma Set_spread_NoDup (xs : list string) : NoDup (Set_spread xs).
Proof. apply Set_fold_spec, NoDup_nil_2. Qed.

Lemma Set_spread_elem_of (xs : list string) (x : string) : x ∈ Set_spread xs ↔ x ∈ xs.
Proof.
  unfold Set_spread. destruct (Set_fold_spec xs [] (NoDup_nil_2)) as [_ ->].
  rewrite elem_of_nil. tauto.
Qed.

(** A list without duplicates is spread as it is: the order of first
    insertion is kept. *)
Lemma Set_fold_NoDup_id (xs acc : list string) :
  NoDup (acc ++ xs) -> fold_left Set_add xs acc = acc ++ xs.
Proof.
  revert acc. induction xs as [|y xs IH]; intros acc Hnd; cbn [fold_left].
  - now rewrite app_nil_r.
  - assert (Hy : y ∉ acc).
    { apply NoDup_app in Hnd as (_ & Hd & _). intros Hin. apply (Hd y Hin). left. }
    unfold Set_add at 2. rewrite bool_decide_eq_false_2 by exact Hy.
    rewrite IH; rewrite <- app_assoc; [reflexivity | exact Hnd].
Qed.

Lemma Set_spread_NoDup_id (xs : list string) : NoDup xs -> Set_spread xs = xs.
Proof. intros H. apply (Set_fold_NoDup_id xs []). exact H. Qed.

(** *** Joins *)

Section Join.

Context {A : Type}.
Implicit Types (arrivals : list (nat * A)) (outcomes : list A) (slots : list (option A)).

Lemma forkJoin_arrive_length arrivals slots :
    length (fold_left forkJoin_arrive arrivals slots) = length slots.
  Proof.
    revert slots. induction arrivals as [|a arrivals IH]; intros slots; cbn [fold_left];
      [reflexivity|]. rewrite IH. apply length_insert.
  Qed.

  (** A slot no arrival addresses stays as it was. *)
Lemma forkJoin_slot_untouched arrivals slots (i : nat) :
    i ∉ arrivals.*1 -> fold_left forkJoin_arrive arrivals slots !! i = slots !! i.
  Proof.
    revert slots. induction arrivals as [|[j v] arrivals IH]; intros slots Hi; cbn [fold_left];
      [reflexivity|].
    rewrite fmap_cons, not_elem_of_cons in Hi. destruct Hi as [Hij Hi].
    rewrite IH by exact Hi. unfold forkJoin_arrive. cbn [fst snd].
    apply list_lookup_insert_ne. intros ->. now apply Hij.
  Qed.

  (** The slots after consistent arrivals: filled with the outcome of the
      lookup where it has arrived, empty elsewhere. *)
Lemma forkJoin_slots outcomes arrivals (i : nat) :
    consistent arrivals outcomes ->
    i < length outcomes ->
    fold_left forkJoin_arrive arrivals (forkJoin_start A (length outcomes)) !! i =
      Some (if decide (i ∈ arrivals.*1) then outcomes !! i else None).
  Proof.
    intros Hc Hi. induction arrivals as [|[j v] arrivals IH] using rev_ind.
    - cbn [fold_left]. unfold forkJoin_start. rewrite lookup_replicate_2 by exact Hi.
      rewrite decide_False; [reflexivity|]. cbn. apply not_elem_of_nil.
    - rewrite fold_left_app. cbn [fold_left]. unfold forkJoin_arrive at 1. cbn [fst snd].
      assert (Hj : outcomes !! j = Some v).
      { apply Hc. apply elem_of_app. right. apply list_elem_of_singleton. reflexivity. }
      assert (Hc' : consistent arrivals outcomes).
      { intros k o Hk. apply Hc. apply elem_of_app. left. exact Hk. }
      specialize (IH Hc'). rewrite fmap_app. cbn [fmap list_fmap fst].
      destruct (decide (i = j)) as [->|Hij].
      + rewrite list_lookup_insert_eq
          by (rewrite forkJoin_arrive_length; unfold forkJoin_start; now rewrite length_replicate).
        rewrite decide_True; [now rewrite Hj|].
        apply elem_of_app. right. apply list_elem_of_singleton. reflexivity.
      + rewrite list_lookup_insert_ne by congruence. rewrite IH.
        f_equal.
        destruct (decide (i ∈ arrivals.*1)) as [Hin|Hnin];
          destruct (decide (i ∈ arrivals.*1 ++ [j])) as [Hin'|Hnin']; try reflexivity.
        * exfalso. apply Hnin'. apply elem_of_app. left. exact Hin.
        * exfalso. apply elem_of_app in Hin' as [Hin'|Hin']; [contradiction|].
          apply list_elem_of_singleton in Hin'. contradiction.
  Qed.

  (** Once every lookup has delivered, in whatever order, the join emits the
      outcomes in the order of the lookups. *)
Lemma forkJoin_complete outcomes arrivals :
    consistent arrivals outcomes ->
    complete arrivals (length outcomes) ->
    forkJoin (length outcomes) arrivals = Some outcomes.
  Proof.
    intros Hc Hall. unfold forkJoin, forkJoin_emit. apply mapM_Some_2.
    apply Forall2_same_length_lookup_2.
    - rewrite forkJoin_arrive_length. unfold forkJoin_start. now rewrite length_replicate.
    - intros i x y Hx Hy.
      assert (Hi : i < length outcomes) by (eapply lookup_lt_Some; exact Hy).
      rewrite (forkJoin_slots outcomes arrivals i Hc Hi) in Hx.
      rewrite decide_True in Hx by (apply Hall; exact Hi).
      injection Hx as <-. exact Hy.
  Qed.

  (** As long as one lookup has not delivered, the join emits nothing. *)
Lemma forkJoin_waits (n : nat) arrivals (i : nat) :
    i < n -> i ∉ arrivals.*1 -> forkJoin n arrivals = None.
  Proof.
    intros Hi Hnot. unfold forkJoin, forkJoin_emit. apply mapM_None_2.
    apply Exists_exists. exists None. split; [|reflexivity].
    apply list_elem_of_lookup. exists i.
    rewrite forkJoin_slot_untouched by exact Hnot.
    unfold forkJoin_start. now apply lookup_replicate_2.
  Qed.

End Join.

(** *** Cascades *)

Lemma labels_values_under (key : string) (r : Response) :
  labels key r = values_under key (bindings r).
Proof.
  unfold labels. induction (bindings r) as [|row rows IH]; [reflexivity|].
  cbn [values_under]. rewrite <- IH. cbn.
  destruct (row !! key) as [cell|]; cbn; [|reflexivity].
  now destruct (mapM (fun b : SparqlBinding => value <$> b !! key) rows).
Qed.

Lemma contribution_subCategoryObservable (o : Notification Response) :
  subCategoryObservable o = contribution "subCategoryLabel" o.
Proof.
  destruct o as [r|]; [|reflexivity]. unfold subCategoryObservable, contribution, rx_map.
  rewrite <- labels_values_under. now destruct (labels "subCategoryLabel" r).
Qed.

Lemma contribution_endCategoryObservable (o : Notification Response) :
  endCategoryObservable o = contribution "endCategoryLabel" o.
Proof.
  destruct o as [r|]; [|reflexivity]. unfold endCategoryObservable, contribution, rx_map.
  rewrite <- labels_values_under. now destruct (labels "endCategoryLabel" r).
Qed.

Section Cascade.

Variable pipe : Notification Response -> list string.
Variable outcomes : list (Notification Response).
Variable arrivals : list (nat * Notification Response).
Hypothesis arrivals_consistent : consistent arrivals outcomes.

Lemma piped_positions : (prod_map id pipe <$> arrivals).*1 = arrivals.*1.
  Proof.
    rewrite <- list_fmap_compose. apply list_fmap_ext. now intros ? [i o] ?.
  Qed.

Lemma piped_consistent : consistent (prod_map id pipe <$> arrivals) (pipe <$> outcomes).
  Proof.
    intros i x Hx. apply list_elem_of_fmap in Hx as ([j o] & Heq & Hin).
    injection Heq as -> ->. rewrite list_lookup_fmap, (arrivals_consistent _ _ Hin). reflexivity.
  Qed.

  (** The join over the piped lookups emits nothing before the last of them
      has delivered, and then the contributions in the order of the
      lookups. *)
Lemma cascade_join :
    (∀ i, i < length outcomes -> i ∉ arrivals.*1 ->
       forkJoin (length outcomes) (prod_map id pipe <$> arrivals) = None) ∧
    (complete arrivals (length outcomes) ->
       forkJoin (length outcomes) (prod_map id pipe <$> arrivals) = Some (pipe <$> outcomes)).
  Proof.
    split.
    - intros i Hi Hnot. apply (forkJoin_waits _ _ i Hi). now rewrite piped_positions.
    - intros Hall. rewrite <- (length_fmap pipe outcomes). apply forkJoin_complete.
      + apply piped_consistent.
      + intros i Hi. rewrite piped_positions. apply Hall. now rewrite length_fmap in Hi.
  Qed.

  (** What is published is the union of the contributions, each label once. *)
Lemma cascade_union :
    NoDup (Set_spread (flat (pipe <$> outcomes))) ∧
    ∀ x, x ∈ Set_spread (flat (pipe <$> outcomes)) ↔ ∃ o, o ∈ outcomes ∧ x ∈ pipe o.
  Proof.
    split; [apply Set_spread_NoDup|]. intros x.
    rewrite Set_spread_elem_of. unfold flat. rewrite list_elem_of_In, in_concat. split.
    - intros (l & Hl & Hx). apply list_elem_of_In, list_elem_of_fmap in Hl as (o & -> & Ho).
      exists o. split; [exact Ho|]. now apply list_elem_of_In.
    - intros (o & Ho & Hx). exists (pipe o). split.
      + apply list_elem_of_In, list_elem_of_fmap. now exists o.
      + now apply list_elem_of_In.
  Qed.

End Cascade.

(** C6. A cascade issues one lookup per selected parent, in the order of
    the selection; the join of the lookups emits nothing while one of them
    is outstanding; once all have delivered, in any order, the subscriber
    completes normally and publishes the union of the contributions without
    repetition, where a lookup that failed contributes nothing. This holds
    for the subcategory options and for the end-category options. The
    contribution of a lookup is read off the rows of its response: the values
    under the label variable, row by row. With two lookups, one failing and
    one answering the two rows Gaming and Ultrabook, in either order, the
    options are Gaming and Ultrabook. *)
Theorem cascade_publishes_union (s : State) (outcomes : list (Notification Response))
    (arrivals : list (nat * Notification Response)) :
  consistent arrivals outcomes ->
  (selectedCategories s ≠ [] -> length outcomes = length (selectedCategories s) ->
     let s1 := (loadSubCategories s).1 in
     let piped := prod_map id subCategoryObservable <$> arrivals in
     (loadSubCategories s).2 =
       [ {| callback := OnSubCategories;
            requests := map ApiService.getSubCategories (selectedCategories s) |} ] ∧
     (∀ i, i < length (selectedCategories s) -> i ∉ arrivals.*1 ->
        forkJoin (length (selectedCategories s)) piped = None) ∧
     (complete arrivals (length (selectedCategories s)) ->
        ∃ (results : list (list string)) (s2 : State),
          forkJoin (length (selectedCategories s)) piped = Some results ∧
          loadSubCategories_next results s1 = Normal s2 ∧
          NoDup (subCategories s2) ∧
          ∀ x, x ∈ subCategories s2 ↔
               ∃ o, o ∈ outcomes ∧ x ∈ contribution "subCategoryLabel" o)) ∧
  (selectedSubCategories s ≠ [] -> length outcomes = length (selectedSubCategories s) ->
     let s1 := (loadEndCategories s).1 in
     let piped := prod_map id endCategoryObservable <$> arrivals in
     (loadEndCategories s).2 =
       [ {| callback := OnEndCategories;
            requests := map ApiService.getEndCategories (selectedSubCategories s) |} ] ∧
     (∀ i, i < length (selectedSubCategories s) -> i ∉ arrivals.*1 ->
        forkJoin (length (selectedSubCategories s)) piped = None) ∧
     (complete arrivals (length (selectedSubCategories s)) ->
        ∃ (results : list (list string)) (s2 : State),
          forkJoin (length (selectedSubCategories s)) piped = Some results ∧
          loadEndCategories_next results s1 = Normal s2 ∧
          NoDup (endCategories s2) ∧
          ∀ x, x ∈ endCategories s2 ↔
               ∃ o, o ∈ outcomes ∧ x ∈ contribution "endCategoryLabel" o)) ∧
  contribution "subCategoryLabel" Errored = [] ∧
  contribution "endCategoryLabel" Errored = [] ∧
  (∀ (r : Response) (s0 : State),
     values_under "subCategoryLabel" (bindings r) = Some ["Gaming"; "Ultrabook"] ->
     loadSubCategories_next (map subCategoryObservable [Errored; Next r]) s0 =
       Normal (set_subCategories ["Gaming"; "Ultrabook"] s0) ∧
     loadSubCategories_next (map subCategoryObservable [Next r; Errored]) s0 =
       Normal (set_subCategories ["Gaming"; "Ultrabook"] s0)) ∧
  (∀ s0 : State,
     loadSubCategories_next
       (map subCategoryObservable
          [Errored; Next (labelled "subCategoryLabel" ["Gaming"; "Ultrabook"])]) s0 =
       Normal (set_subCategories ["Gaming"; "Ultrabook"] s0) ∧
     loadSubCategories_next
       (map subCategoryObservable
          [Next (labelled "subCategoryLabel" ["Gaming"; "Ultrabook"]); Errored]) s0 =
       Normal (set_subCategories ["Gaming"; "Ultrabook"] s0) ∧
     loadEndCategories_next
       (map endCategoryObservable
          [Errored; Next (labelled "endCategoryLabel" ["Gaming"; "Ultrabook"])]) s0 =
       Normal (set_endCategories ["Gaming"; "Ultrabook"] s0) ∧
     loadEndCategories_next
       (map endCategoryObservable
          [Next (labelled "endCategoryLabel" ["Gaming"; "Ultrabook"]);
           Next (labelled "endCategoryLabel" ["Ultrabook"; "Gaming"])]) s0 =
       Normal (set_endCategories ["Gaming"; "Ultrabook"] s0)).
Proof.
  intros Hc. split; [|split; [|split; [|split; [|split]]]]; try reflexivity.
  - intros Hsel Hlen. cbv zeta. rewrite <- Hlen.
    destruct (cascade_join subCategoryObservable outcomes arrivals Hc) as [Hwait Hjoin].
    destruct (cascade_union subCategoryObservable outcomes) as [Hnd Hin].
    split; [|split; [exact Hwait|]].
    + unfold loadSubCategories.
      cbn [selectedCategories set_subCategories set_selectedSubCategories set_endCategories
           set_selectedEndCategories].
      destruct (selectedCategories s); [congruence | reflexivity].
    + intros Hall. eexists _, _. split; [exact (Hjoin Hall)|]. split; [reflexivity|].
      cbn [subCategories set_subCategories]. split; [exact Hnd|].
      intros x. rewrite Hin. split; intros (o & Ho & Hx); exists o; split; auto;
        [rewrite <- contribution_subCategoryObservable | rewrite contribution_subCategoryObservable];
        exact Hx.
  - intros Hsel Hlen. cbv zeta. rewrite <- Hlen.
    destruct (cascade_join endCategoryObservable outcomes arrivals Hc) as [Hwait Hjoin].
    destruct (cascade_union endCategoryObservable outcomes) as [Hnd Hin].
    split; [|split; [exact Hwait|]].
    + unfold loadEndCategories.
      cbn [selectedSubCategories set_endCategories set_selectedEndCategories].
      destruct (selectedSubCategories s); [congruence | reflexivity].
    + intros Hall. eexists _, _. split; [exact (Hjoin Hall)|]. split; [reflexivity|].
      cbn [endCategories set_endCategories]. split; [exact Hnd|].
      intros x. rewrite Hin. split; intros (o & Ho & Hx); exists o; split; auto;
        [rewrite <- contribution_endCategoryObservable | rewrite contribution_endCategoryObservable];
        exact Hx.
  - intros r s0 Hr. unfold loadSubCategories_next. cbn [map flat concat].
    rewrite !contribution_subCategoryObservable. cbn [contribution]. rewrite Hr.
    cbn [default app]. split; reflexivity.
  - intros s0. unfold loadSubCategories_next, loadEndCategories_next.
    repeat split; f_equal; f_equal; vm_compute; reflexivity.
Qed.

Lemma cascade_publishes_union_witness :
  let r := labelled "subCategoryLabel" ["Gaming"; "Ultrabook"] in
  let s := set_selectedCategories ["Laptops"; "Phones"] initial in
  let outcomes := [Errored; Next r] in
  let arrivals := [(1, Next r); (0, Errored)] in
  consistent arrivals outcomes ∧
  forkJoin 2 (prod_map id subCategoryObservable <$> [(1, Next r)]) = None ∧
  forkJoin 2 (prod_map id subCategoryObservable <$> arrivals) = Some [[]; ["Gaming"; "Ultrabook"]] ∧
  loadSubCategories_next [[]; ["Gaming"; "Ultrabook"]] (loadSubCategories s).1 =
    Normal (set_subCategories ["Gaming"; "Ultrabook"] (loadSubCategories s).1) ∧
  ∃ (results : list (list string)) (s2 : State),
    forkJoin 2 (prod_map id subCategoryObservable <$> arrivals) = Some results ∧
    loadSubCategories_next results (loadSubCategories s).1 = Normal s2 ∧
    NoDup (subCategories s2) ∧
    ∀ x, x ∈ subCategories s2 ↔ ∃ o, o ∈ outcomes ∧ x ∈ contribution "subCategoryLabel" o.
Proof.
  cbv zeta.
  assert (Hc : consistent
                 [(1, Next (labelled "subCategoryLabel" ["Gaming"; "Ultrabook"])); (0, Errored)]
                 [Errored; Next (labelled "subCategoryLabel" ["Gaming"; "Ultrabook"])]).
  { intros i o Hin.
    repeat (apply elem_of_cons in Hin as [Hin|Hin]; [injection Hin as -> ->; reflexivity|]).
    inversion Hin. }
  split; [exact Hc|]. split; [vm_compute; reflexivity|]. split; [vm_compute; reflexivity|].
  split; [vm_compute; reflexivity|].
  destruct (cascade_publishes_union (set_selectedCategories ["Laptops"; "Phones"] initial) _ _ Hc)
    as [Hsub _].
  apply Hsub; [discriminate | reflexivity |].
  intros i Hi. destruct i as [|[|i]]; cbn in Hi |- *; [| |lia].
  - apply elem_of_cons. right. apply elem_of_cons. left. reflexivity.
  - apply elem_of_cons. left. reflexivity.
Defined.

(** *** Option lists of reachable states *)

(** Unfold the handlers down to the assignments they make. *)
Ltac run_handlers :=
  unfold handle, subscribe, state_of, ngOnInit, and_then,
    loadInitialCategories, loadInitialCategories_next, loadInitialCategories_error,
    loadStores, loadStores_next, loadStores_error, onDropdownToggle, onDocumentClick,
    closeAllDropdowns, onCategoryChange, onStoreChange, onSubCategoryChange,
    onEndCategoryChange, removeChip, loadSubCategories, loadEndCategories,
    loadSubCategories_next, loadEndCategories_next, applyFilters, nextPage, prevPage,
    goToPage, fetchData, fetchData_next, fetchData_error;
  repeat case_match; simplify_eq;
  cbn [fst snd
       categories subCategories endCategories stores selectedCategories selectedSubCategories
       selectedEndCategories selectedStores minPrice maxPrice minDiscount maxDiscount
       tableData isLoading error pageSize currentPage totalPages dropdownOpen
       set_categories set_subCategories set_endCategories set_stores set_selectedCategories
       set_selectedSubCategories set_selectedEndCategories set_selectedStores set_minPrice
       set_maxPrice set_minDiscount set_maxDiscount set_tableData set_isLoading set_error
       set_currentPage set_totalPages set_dropdownOpen].

(** An event leaves an option list as it was, empties it, or replaces it by
    the spread of a set. *)
Lemma handle_subCategories (e : Event) (s : State) :
  subCategories (handle e s) = subCategories s ∨
  subCategories (handle e s) = [] ∨
  ∃ xs, subCategories (handle e s) = Set_spread xs.
Proof. destruct e; run_handlers; eauto. Qed.

Lemma handle_endCategories (e : Event) (s : State) :
  endCategories (handle e s) = endCategories s ∨
  endCategories (handle e s) = [] ∨
  ∃ xs, endCategories (handle e s) = Set_spread xs.
Proof. destruct e; run_handlers; eauto. Qed.

(** C10. In every reachable state the subcategory options and the
    end-category options hold no label twice; and a cascade over an empty
    parent selection starts no lookup and leaves the option list empty. *)
Theorem cascade_options_no_duplicates (s : State) :
  reachable s ->
  NoDup (subCategories s) ∧ NoDup (endCategories s) ∧
  (selectedCategories s = [] ->
     (loadSubCategories s).2 = [] ∧ subCategories (loadSubCategories s).1 = []) ∧
  (selectedSubCategories s = [] ->
     (loadEndCategories s).2 = [] ∧ endCategories (loadEndCategories s).1 = []).
Proof.
  intros Hr.
  assert (Hnd : NoDup (subCategories s) ∧ NoDup (endCategories s)).
  { induction Hr as [|e s Hr [IH1 IH2]]; [split; apply NoDup_nil_2|]. split.
    - destruct (handle_subCategories e s) as [-> | [-> | [xs ->]]];
        [exact IH1 | apply NoDup_nil_2 | apply Set_spread_NoDup].
    - destruct (handle_endCategories e s) as [-> | [-> | [xs ->]]];
        [exact IH2 | apply NoDup_nil_2 | apply Set_spread_NoDup]. }
  destruct Hnd as [H1 H2]. split; [exact H1|]. split; [exact H2|]. split.
  - intros Hsel. unfold loadSubCategories.
    cbn [selectedCategories set_subCategories set_selectedSubCategories set_endCategories
         set_selectedEndCategories]. rewrite Hsel. split; reflexivity.
  - intros Hsel. unfold loadEndCategories.
    cbn [selectedSubCategories set_endCategories set_selectedEndCategories].
    rewrite Hsel. split; reflexivity.
Qed.

Lemma cascade_options_no_duplicates_witness :
  let r := {| bindings := [ {[ "subCategoryLabel" := {| type := "literal"; value := "Gaming" |} ]};
                            {[ "subCategoryLabel" := {| type := "literal"; value := "Gaming" |} ]} ] |} in
  let s := handle (SubCategoriesJoined [Next r; Next r]) (handle (CategoryChange "Laptops" true) initial) in
  reachable s ∧
  subCategories s = ["Gaming"] ∧
  NoDup (subCategories s) ∧ NoDup (endCategories s) ∧
  (selectedCategories s = [] ->
     (loadSubCategories s).2 = [] ∧ subCategories (loadSubCategories s).1 = []) ∧
  (selectedSubCategories s = [] ->
     (loadEndCategories s).2 = [] ∧ endCategories (loadEndCategories s).1 = []).
Proof.
  cbv zeta.
  assert (Hr : reachable
                 (handle (SubCategoriesJoined
                            [Next {| bindings := [ {[ "subCategoryLabel" := {| type := "literal"; value := "Gaming" |} ]};
                                                   {[ "subCategoryLabel" := {| type := "literal"; value := "Gaming" |} ]} ] |};
                             Next {| bindings := [ {[ "subCategoryLabel" := {| type := "literal"; value := "Gaming" |} ]};
                                                   {[ "subCategoryLabel" := {| type := "literal"; value := "Gaming" |} ]} ] |}])
                    (handle (CategoryChange "Laptops" true) initial)))
    by (apply reachable_handle, reachable_handle, reachable_initial).
  split; [exact Hr|]. split; [vm_compute; reflexivity|].
  apply (cascade_options_no_duplicates _ Hr).
Defined.


(** * Further properties of the query builder *)

Lemma str_app_eq_nil (a b : string) : a +:+ b = EmptyString -> a = EmptyString ∧ b = EmptyString.
Proof.
  destruct a as [|c a]; [intros H; split; [reflexivity | exact H]|].
  rewrite str_app_cons. discriminate.
Qed.

Lemma occurs_in_refl (t : string) : occurs_in t t.
Proof. exists EmptyString, EmptyString. now rewrite str_app_nil_r. Qed.

Lemma occurs_in_app_l (t a b : string) : occurs_in t a -> occurs_in t (a +:+ b).
Proof. intros (pre & post & ->). exists pre, (post +:+ b). now rewrite !str_app_assoc. Qed.

(** X1. The store filter is empty when no store is selected; otherwise it
    tests [?storeName IN] over the quoted stores, in their order; and, as long
    as no label holds a double quote, two selections with the same filter
    text are the same selection. *)
Theorem storeFilters_exact (stores others : list string) :
  Forall (fun x => quote_free x = true) stores ->
  Forall (fun x => quote_free x = true) others ->
  ApiService.storeFilters [] = EmptyString ∧
  (stores ≠ [] ->
     occurs_in ("FILTER(?storeName IN (" +:+ quotedValues stores +:+ "))")
       (ApiService.storeFilters stores)) ∧
  (ApiService.storeFilters stores = ApiService.storeFilters others -> stores = others).
Proof.
  intros Hs Ho. split; [reflexivity|]. split.
  - intros Hne. unfold ApiService.storeFilters. rewrite nonEmpty_true by exact Hne.
    exists "
        ?product :soldBy ?storeNode .
        ?storeNode rdfs:label ?storeName .
        ", "
      ". str_norm. reflexivity.
  - unfold ApiService.storeFilters.
    destruct stores as [|x xs], others as [|y ys]; rewrite ?nonEmpty_cons;
      change (nonEmpty (@nil string)) with false; cbv iota; intros E;
      try reflexivity; try discriminate.
    apply (inj (String.append _)) in E. apply str_app_inj_r in E.
    now apply quotedValues_inj.
Qed.

Lemma storeFilters_exact_witness :
  Forall (fun x => quote_free x = true) ["Anhoch"; "Setec"] ∧
  Forall (fun x => quote_free x = true) ["Anhoch"] ∧
  ApiService.storeFilters [] = EmptyString ∧
  (["Anhoch"; "Setec"] ≠ [] ->
     occurs_in ("FILTER(?storeName IN (" +:+ quotedValues ["Anhoch"; "Setec"] +:+ "))")
       (ApiService.storeFilters ["Anhoch"; "Setec"])) ∧
  (ApiService.storeFilters ["Anhoch"; "Setec"] = ApiService.storeFilters ["Anhoch"] ->
     ["Anhoch"; "Setec"] = ["Anhoch"]).
Proof.
  assert (H1 : Forall (fun x => quote_free x = true) ["Anhoch"; "Setec"])
    by (repeat constructor).
  assert (H2 : Forall (fun x => quote_free x = true) ["Anhoch"]) by (repeat constructor).
  split; [exact H1|]. split; [exact H2|].
  exact (storeFilters_exact ["Anhoch"; "Setec"] ["Anhoch"] H1 H2).
Defined.

Section Bounds.

Variable num : Type.
Variable toString : num -> string.

(** X2. The price and discount fragment is one comparison line per bound
    that is given, in the order minimum price, maximum price, minimum
    discount, maximum discount, each closed by a line feed; it is empty
    exactly when no bound is given. *)
Theorem priceDiscountFilters_bounds (minPrice maxPrice minDiscount maxDiscount : option num) :
  let pf := ApiService.priceDiscountFilters num toString minPrice maxPrice minDiscount maxDiscount in
  pf =
    bound_line "FILTER(xsd:decimal(?regularPrice) >= " (toString <$> minPrice) +:+
    bound_line "FILTER(xsd:decimal(?regularPrice) <= " (toString <$> maxPrice) +:+
    bound_line "FILTER(xsd:decimal(?discountPercent) >= " (toString <$> minDiscount) +:+
    bound_line "FILTER(xsd:decimal(?discountPercent) <= " (toString <$> maxDiscount) ∧
  (pf = EmptyString ↔
     minPrice = None ∧ maxPrice = None ∧ minDiscount = None ∧ maxDiscount = None).
Proof.
  cbv zeta.
  assert (Hlines :
    ApiService.priceDiscountFilters num toString minPrice maxPrice minDiscount maxDiscount =
    bound_line "FILTER(xsd:decimal(?regularPrice) >= " (toString <$> minPrice) +:+
    bound_line "FILTER(xsd:decimal(?regularPrice) <= " (toString <$> maxPrice) +:+
    bound_line "FILTER(xsd:decimal(?discountPercent) >= " (toString <$> minDiscount) +:+
    bound_line "FILTER(xsd:decimal(?discountPercent) <= " (toString <$> maxDiscount)).
  { unfold ApiService.priceDiscountFilters, bound_line.
    destruct minPrice, maxPrice, minDiscount, maxDiscount; cbn [fmap option_fmap option_map];
      rewrite ?str_app_assoc, ?str_app_nil_l, ?str_app_nil_r; reflexivity. }
  split; [exact Hlines|]. split.
  - unfold ApiService.priceDiscountFilters.
    destruct minPrice, maxPrice, minDiscount, maxDiscount; intros E; auto;
      apply (f_equal String.length) in E; rewrite ?str_length_app in E;
      cbn [String.length] in E; lia.
  - now intros (-> & -> & -> & ->).
Qed.

(** X4. For given filters the listing query depends on the limit and on the
    offset only through the two numbers printed in the window of the
    paginated subquery: the text before, between and after them, which holds
    the whole count subquery, is the same on every page. *)
Theorem getGraphData_window_only (cats subs ends : list string)
    (minPrice maxPrice minDiscount maxDiscount : option num) (stores : list string) :
  ∃ pre post : string,
    occurs_in
      (countSubquery (ApiService.categoryFilters cats subs ends) (ApiService.storeFilters stores)
         (ApiService.priceDiscountFilters num toString minPrice maxPrice minDiscount maxDiscount))
      post ∧
    ∀ limit offset : num,
      ApiService.getGraphData num toString limit offset cats subs ends
        minPrice maxPrice minDiscount maxDiscount stores =
      pre +:+ toString limit +:+ offsetClause +:+ toString offset +:+ post.
Proof.
  set (cf := ApiService.categoryFilters cats subs ends).
  set (sf := ApiService.storeFilters stores).
  set (pf := ApiService.priceDiscountFilters num toString minPrice maxPrice minDiscount maxDiscount).
  exists (queryProlog +:+ paginatedSelect +:+ cf +:+ fragmentSep +:+ sf +:+ fragmentSep +:+ pf +:+
          paginatedOrder), (subqueryClose +:+ queryInterlude +:+ countSubquery cf sf pf +:+ queryEpilog).
  split.
  - do 2 apply occurs_in_skip. apply occurs_in_here.
  - intros limit offset. rewrite getGraphData_subqueries. cbv zeta. fold cf sf pf.
    unfold paginatedSubquery. str_norm. reflexivity.
Qed.

End Bounds.

(** X3. Labels are interpolated without escaping: a label that holds a double
    quote, a comma and a double quote renders exactly as the two labels
    around them, so the category filter and the store filter over that one
    label are the filters over the two. *)
Theorem quoted_labels_not_escaped (x y : string) (rest : list string) :
  let injected := x +:+ dquote +:+ "," +:+ dquote +:+ y in
  quotedValues (injected :: rest) = quotedValues (x :: y :: rest) ∧
  ApiService.categoryFilters [] [] (injected :: rest) =
    ApiService.categoryFilters [] [] (x :: y :: rest) ∧
  ApiService.categoryFilters (injected :: rest) [] [] =
    ApiService.categoryFilters (x :: y :: rest) [] [] ∧
  ApiService.storeFilters (injected :: rest) = ApiService.storeFilters (x :: y :: rest).
Proof.
  cbv zeta.
  assert (H : quotedValues ((x +:+ dquote +:+ "," +:+ dquote +:+ y) :: rest) =
              quotedValues (x :: y :: rest)).
  { unfold quotedValues, join. destruct rest as [|z rest]; cbn [map String.concat];
      unfold quoted; str_norm; reflexivity. }
  split; [exact H|].
  rewrite !categoryFilters_cases. unfold ApiService.storeFilters, categoryFilterOver.
  rewrite !nonEmpty_cons. change (nonEmpty (@nil string)) with false. cbv iota.
  rewrite H. repeat split.
Qed.

(** X5. The lookup queries tell their parents apart: two subcategory lookups
    with the same text are for the same category, and two end-category
    lookups with the same text are for the same subcategory. *)
Theorem lookup_queries_injective (a b : string) :
  (ApiService.getSubCategories a = ApiService.getSubCategories b -> a = b) ∧
  (ApiService.getEndCategories a = ApiService.getEndCategories b -> a = b).
Proof.
  split; intros E; unfold ApiService.getSubCategories, ApiService.getEndCategories in E;
    apply (inj (String.append _)) in E; apply (inj (String.append _)) in E;
    apply str_app_inj_r in E; exact E.
Qed.

(** * Further properties of the controller *)

(** ** Dropdowns *)

(** X8. Toggling a dropdown closes the three others and flips the one
    toggled; a click in the document never opens a dropdown, and one outside
    the component closes them all. *)
Theorem dropdown_toggle_exclusive (t u : DropdownType) (s : State)
    (target inside dropdownElement checkboxOrLabel : bool) :
  is_open t (dropdownOpen (onDropdownToggle t s)) = negb (is_open t (dropdownOpen s)) ∧
  (u ≠ t -> is_open u (dropdownOpen (onDropdownToggle t s)) = false) ∧
  (is_open u (dropdownOpen (onDocumentClick target inside dropdownElement checkboxOrLabel s)) = true ->
     is_open u (dropdownOpen s) = true) ∧
  is_open u (dropdownOpen (onDocumentClick true false dropdownElement checkboxOrLabel s)) = false.
Proof.
  split; [|split; [|split]].
  - destruct t; reflexivity.
  - destruct t, u; intros H; try reflexivity; congruence.
  - unfold onDocumentClick, closeAllDropdowns.
    destruct target, inside, dropdownElement, checkboxOrLabel, u; cbn; congruence.
  - destruct dropdownElement, checkboxOrLabel, u; reflexivity.
Qed.

Lemma handle_dropdownOpen (e : Event) (s : State) :
  dropdownOpen (handle e s) = dropdownOpen s ∨
  open_count (dropdownOpen (handle e s)) <= 1.
Proof.
  destruct e; run_handlers; auto.
  all: right; unfold open_count; try destruct t;
    destruct (dropdownOpen s) as [[] [] [] []]; cbn; lia.
Qed.

(** X7. In every reachable state at most one dropdown is open. *)
Theorem at_most_one_dropdown_open (s : State) :
  reachable s -> open_count (dropdownOpen s) <= 1.
Proof.
  induction 1 as [|e s Hr IH]; [cbn; lia|].
  destruct (handle_dropdownOpen e s) as [-> | H]; assumption.
Qed.

Lemma at_most_one_dropdown_open_witness :
  let s := handle (DropdownToggle TStore) (handle (DropdownToggle TCategory) initial) in
  reachable s ∧ is_open TStore (dropdownOpen s) = true ∧ open_count (dropdownOpen s) <= 1.
Proof.
  cbv zeta.
  assert (Hr : reachable (handle (DropdownToggle TStore) (handle (DropdownToggle TCategory) initial)))
    by (apply reachable_handle, reachable_handle, reachable_initial).
  split; [exact Hr|]. split; [reflexivity|].
  exact (at_most_one_dropdown_open _ Hr).
Defined.

(** ** Loading the options *)

(** The labels read from a response: one per binding, in order, when every
    binding has the key; none as soon as one binding lacks it. *)
Lemma labels_spec (key : string) (r : Response) :
  (Forall (fun b : SparqlBinding => is_Some (b !! key)) (bindings r) ->
     ∃ ls, labels key r = Some ls ∧ length ls = length (bindings r) ∧
           ∀ i (b : SparqlBinding), bindings r !! i = Some b ->
             ∃ cell, b !! key = Some cell ∧ ls !! i = Some (value cell)) ∧
  (Exists (fun b : SparqlBinding => b !! key = None) (bindings r) -> labels key r = None).
Proof.
  unfold labels. split.
  - intros Hall.
    destruct (mapM (fun b : SparqlBinding => value <$> b !! key) (bindings r)) as [ls|] eqn:E.
    + exists ls. split; [reflexivity|]. apply mapM_Some_1 in E.
      split; [symmetry; eapply Forall2_length; exact E|].
      intros i b Hb. destruct (Forall2_lookup_l _ _ _ _ _ E Hb) as (v & Hv & Hbv).
      destruct (b !! key) as [cell|]; [|discriminate]. exists cell. split; [reflexivity|].
      cbn in Hbv. injection Hbv as <-. exact Hv.
    + apply mapM_None_1, Exists_exists in E as (b & Hin & Hb).
      rewrite Forall_forall in Hall. destruct (Hall b Hin) as [cell Hcell].
      rewrite Hcell in Hb. discriminate.
  - intros Hex. apply mapM_None_2. eapply Exists_impl; [exact Hex|].
    intros b Hb. cbn beta. now rewrite Hb.
Qed.

(** X6. The category and store callbacks take the options from the response
    as it comes: one label per binding, in the order of the bindings, when
    every binding has the variable; when one binding lacks it the callback
    throws and the options stay as they were. *)
Theorem options_loaded_in_order (r : Response) (s : State) :
  (Forall (fun b : SparqlBinding => is_Some (b !! "categoryLabel")) (bindings r) ->
     ∃ ls, loadInitialCategories_next r s = Normal (set_categories ls s) ∧
           length ls = length (bindings r) ∧
           ∀ i (b : SparqlBinding), bindings r !! i = Some b ->
             ∃ cell, b !! "categoryLabel" = Some cell ∧ ls !! i = Some (value cell)) ∧
  (Exists (fun b : SparqlBinding => b !! "categoryLabel" = None) (bindings r) ->
     loadInitialCategories_next r s = Throw TypeError s) ∧
  (Forall (fun b : SparqlBinding => is_Some (b !! "storeLabel")) (bindings r) ->
     ∃ ls, loadStores_next r s = Normal (set_stores ls s) ∧
           length ls = length (bindings r) ∧
           ∀ i (b : SparqlBinding), bindings r !! i = Some b ->
             ∃ cell, b !! "storeLabel" = Some cell ∧ ls !! i = Some (value cell)) ∧
  (Exists (fun b : SparqlBinding => b !! "storeLabel" = None) (bindings r) ->
     loadStores_next r s = Throw TypeError s).
Proof.
  destruct (labels_spec "categoryLabel" r) as [Hc1 Hc2].
  destruct (labels_spec "storeLabel" r) as [Hs1 Hs2].
  unfold loadInitialCategories_next, loadStores_next. repeat split.
  - intros H. destruct (Hc1 H) as (ls & -> & Hl). exists ls. split; [reflexivity | exact Hl].
  - intros H. now rewrite (Hc2 H).
  - intros H. destruct (Hs1 H) as (ls & -> & Hl). exists ls. split; [reflexivity | exact Hl].
  - intros H. now rewrite (Hs2 H).
Qed.

(** ** Toggles and chips *)

(** X9. Removing a chip is unchecking the corresponding checkbox, at each of
    the four kinds. *)
Theorem removeChip_is_uncheck (v : string) (s : State) :
  removeChip TCategory v s = onCategoryChange v false s ∧
  removeChip TSub v s = onSubCategoryChange v false s ∧
  removeChip TEnd v s = onEndCategoryChange v false s ∧
  removeChip TStore v s = onStoreChange v false s.
Proof. repeat split. Qed.

Lemma filter_ne_not_in (x : string) (l : list string) : x ∉ filter (fun y => y ≠ x) l.
Proof. intros H. apply list_elem_of_filter in H as [H _]. now apply H. Qed.

Lemma filter_ne_snoc (x : string) (l : list string) :
  x ∉ l -> filter (fun y => y ≠ x) (l ++ [x]) = l.
Proof.
  intros Hx. rewrite filter_app.
  assert (H1 : filter (fun y => y ≠ x) [x] = []) by (rewrite filter_cons_False by auto; reflexivity).
  assert (H2 : filter (fun y => y ≠ x) l = l).
  { induction l as [|y l IH]; [reflexivity|].
    apply not_elem_of_cons in Hx as [Hne Hx].
    rewrite filter_cons_True by congruence. now rewrite IH. }
  now rewrite H1, H2, app_nil_r.
Qed.

(** X10. For stores and for end categories, unchecking a label leaves no
    copy of it in the selection and keeps every other label; checking a label
    that was not selected and unchecking it again gives back the state; a
    label checked twice is selected twice. *)
Theorem store_and_end_selection_toggles (x : string) (s : State) :
  (x ∉ selectedStores (onStoreChange x false s).1) ∧
  (∀ y, y ≠ x -> (y ∈ selectedStores (onStoreChange x false s).1 ↔ y ∈ selectedStores s)) ∧
  (x ∉ selectedStores s -> onStoreChange x false (onStoreChange x true s).1 = (s, [])) ∧
  selectedStores (onStoreChange x true (onStoreChange x true s).1).1 = selectedStores s ++ [x; x] ∧
  (x ∉ selectedEndCategories (onEndCategoryChange x false s).1) ∧
  (∀ y, y ≠ x ->
     (y ∈ selectedEndCategories (onEndCategoryChange x false s).1 ↔ y ∈ selectedEndCategories s)) ∧
  (x ∉ selectedEndCategories s ->
     onEndCategoryChange x false (onEndCategoryChange x true s).1 = (s, [])) ∧
  selectedEndCategories (onEndCategoryChange x true (onEndCategoryChange x true s).1).1 =
    selectedEndCategories s ++ [x; x].
Proof.
  unfold onStoreChange, onEndCategoryChange.
  cbn [fst selectedStores set_selectedStores selectedEndCategories set_selectedEndCategories].
  split; [|split; [|split; [|split; [|split; [|split; [|split]]]]]].
  - apply filter_ne_not_in.
  - intros y Hy. rewrite list_elem_of_filter. tauto.
  - intros Hx. rewrite filter_ne_snoc by exact Hx. f_equal. now destruct s.
  - now rewrite <- app_assoc.
  - apply filter_ne_not_in.
  - intros y Hy. rewrite list_elem_of_filter. tauto.
  - intros Hx. rewrite filter_ne_snoc by exact Hx. f_equal. now destruct s.
  - now rewrite <- app_assoc.
Qed.

(** X11. Toggling a top category, on or off, empties the subcategory options,
    the selected subcategories, the end-category options and the selected end
    categories, whatever they held; it starts no listing fetch and leaves the
    table and the page state alone. Checking a category starts one lookup per
    selected category, the new one last. *)
Theorem onCategoryChange_resets_lower_levels (c : string) (isChecked : bool) (s : State) :
  let s' := (onCategoryChange c isChecked s).1 in
  subCategories s' = [] ∧ selectedSubCategories s' = [] ∧
  endCategories s' = [] ∧ selectedEndCategories s' = [] ∧
  no_fetch (onCategoryChange c isChecked s).2 ∧
  same_listing s s' ∧
  selectedStores s' = selectedStores s ∧
  onCategoryChange c true s =
    ((onCategoryChange c true s).1,
     [ {| callback := OnSubCategories;
          requests := map ApiService.getSubCategories (selectedCategories s) ++
                      [ApiService.getSubCategories c] |} ]).
Proof.
  cbv zeta. unfold onCategoryChange, loadSubCategories, no_fetch, same_listing.
  assert (Hlen : (length (selectedCategories s ++ [c]) =? 0)%nat = false).
  { rewrite length_app. cbn. apply Nat.eqb_neq. lia. }
  cbn [selectedCategories set_selectedCategories set_subCategories set_selectedSubCategories
       set_endCategories set_selectedEndCategories].
  rewrite Hlen, map_app.
  assert (Hstarted : ∀ started : list Subscription,
             started = [] ∨ (∃ q, started = [ {| callback := OnSubCategories; requests := q |} ]) ->
             Forall (fun x => callback x ≠ OnGraphData) started).
  { intros ? [-> | [q ->]]; [apply Forall_nil_2|].
    constructor; [discriminate | apply Forall_nil_2]. }
  destruct isChecked;
    cbn [selectedCategories set_selectedCategories set_subCategories set_selectedSubCategories
         set_endCategories set_selectedEndCategories];
    rewrite ?Hlen;
    try destruct (length (filter _ _) =? 0)%nat;
    cbn [fst snd subCategories selectedSubCategories endCategories selectedEndCategories
         tableData isLoading error pageSize currentPage totalPages selectedStores];
    repeat split; apply Hstarted; eauto.
Qed.

(** X12. Toggling a subcategory, on or off, empties the end-category options
    and the selected end categories, and keeps the categories, the selected
    categories, the subcategory options, the table and the page state; it
    starts no listing fetch. Checking a subcategory starts one lookup per
    selected subcategory, the new one last. *)
Theorem onSubCategoryChange_resets_end_level (c : string) (isChecked : bool) (s : State) :
  let s' := (onSubCategoryChange c isChecked s).1 in
  endCategories s' = [] ∧ selectedEndCategories s' = [] ∧
  categories s' = categories s ∧ selectedCategories s' = selectedCategories s ∧
  subCategories s' = subCategories s ∧
  no_fetch (onSubCategoryChange c isChecked s).2 ∧
  same_listing s s' ∧
  onSubCategoryChange c true s =
    ((onSubCategoryChange c true s).1,
     [ {| callback := OnEndCategories;
          requests := map ApiService.getEndCategories (selectedSubCategories s) ++
                      [ApiService.getEndCategories c] |} ]).
Proof.
  cbv zeta. unfold onSubCategoryChange, loadEndCategories, no_fetch, same_listing.
  assert (Hlen : (length (selectedSubCategories s ++ [c]) =? 0)%nat = false).
  { rewrite length_app. cbn. apply Nat.eqb_neq. lia. }
  cbn [selectedSubCategories set_selectedSubCategories set_endCategories
       set_selectedEndCategories].
  rewrite Hlen, map_app.
  assert (Hstarted : ∀ started : list Subscription,
             started = [] ∨ (∃ q, started = [ {| callback := OnEndCategories; requests := q |} ]) ->
             Forall (fun x => callback x ≠ OnGraphData) started).
  { intros ? [-> | [q ->]]; [apply Forall_nil_2|].
    constructor; [discriminate | apply Forall_nil_2]. }
  destruct isChecked;
    cbn [selectedSubCategories set_selectedSubCategories set_endCategories
         set_selectedEndCategories];
    rewrite ?Hlen;
    try destruct (length (filter _ _) =? 0)%nat;
    cbn [fst snd categories selectedCategories subCategories endCategories selectedEndCategories
         tableData isLoading error pageSize currentPage totalPages];
    repeat split; apply Hstarted; eauto.
Qed.

(** ** Paging *)

(** The query [fetchData] posts at an integer page and page size. *)
Lemma fetchData_at (s : State) (cp ps : Z) :
  currentPage s = Fin cp -> pageSize s = Fin ps ->
  fetchData s =
    (set_error None (set_isLoading true s),
     [ {| callback := OnGraphData;
          requests := [ ApiService.getGraphData number Number_toString (Fin ps)
                          (Fin ((cp - 1) * ps))
                          (selectedCategories s) (selectedSubCategories s) (selectedEndCategories s)
                          (minPrice s) (maxPrice s) (minDiscount s) (maxDiscount s)
                          (selectedStores s) ] |} ]).
Proof.
  intros Hcp Hps. unfold fetchData.
  cbn [currentPage pageSize set_error set_isLoading selectedCategories selectedSubCategories
       selectedEndCategories minPrice maxPrice minDiscount maxDiscount selectedStores].
  rewrite Hcp, Hps. cbn [JS.sub JS.mul add neg]. now replace (cp + - (1))%Z with (cp - 1)%Z by lia.
Qed.

(** X13. Applying the filters goes back to page 1 whatever the current page
    was: the one query it posts is the builder's at offset 0 over the current
    selections and bounds, and the state it leaves is at page 1, loading,
    with no error message. *)
Theorem applyFilters_first_page (s : State) (ps : Z) :
  pageSize s = Fin ps ->
  ∃ s' : State,
    applyFilters s =
      (s', [ {| callback := OnGraphData;
                requests := [ ApiService.getGraphData number Number_toString (Fin ps) (Fin 0)
                                (selectedCategories s) (selectedSubCategories s)
                                (selectedEndCategories s)
                                (minPrice s) (maxPrice s) (minDiscount s) (maxDiscount s)
                                (selectedStores s) ] |} ]) ∧
    currentPage s' = Fin 1 ∧ isLoading s' = true ∧ error s' = None ∧
    tableData s' = tableData s ∧ totalPages s' = totalPages s.
Proof.
  intros Hps. eexists. unfold applyFilters.
  rewrite (fetchData_at (set_currentPage (Fin 1) s) 1 ps) by (reflexivity || exact Hps).
  repeat split.
Qed.

Lemma applyFilters_first_page_witness :
  let s := set_currentPage (Fin 7) initial in
  pageSize s = Fin 30 ∧
  ∃ s' : State,
    applyFilters s =
      (s', [ {| callback := OnGraphData;
                requests := [ ApiService.getGraphData number Number_toString (Fin 30) (Fin 0)
                                [] [] [] None None None None [] ] |} ]) ∧
    currentPage s' = Fin 1 ∧ isLoading s' = true ∧ error s' = None ∧
    tableData s' = tableData s ∧ totalPages s' = totalPages s.
Proof.
  cbv zeta. split; [reflexivity|].
  apply (applyFilters_first_page (set_currentPage (Fin 7) initial) 30). reflexivity.
Defined.

(** X14. At integer pages, page count and page size that are safe integers
    (below 2^53 in magnitude, where adding and subtracting 1 is exact on
    doubles): on the last page or beyond, [nextPage] does nothing and posts
    nothing; on page 1 or below, [prevPage] does nothing and posts nothing;
    otherwise each moves one page and posts one query, at the offset of the
    page it moves to when that offset is a safe integer too; and going to the
    next page and back returns to the page one started from. *)
Theorem nextPage_prevPage_steps (s : State) (cp tp ps : Z) :
  currentPage s = Fin cp -> totalPages s = Fin tp -> pageSize s = Fin ps ->
  safe cp -> safe tp -> safe ps ->
  ((tp <= cp)%Z -> nextPage s = (s, [])) ∧
  ((cp <= 1)%Z -> prevPage s = (s, [])) ∧
  ((cp < tp)%Z -> safe (cp * ps) ->
     currentPage (nextPage s).1 = Fin (cp + 1) ∧
     (nextPage s).2 =
       [ {| callback := OnGraphData;
            requests := [ ApiService.getGraphData number Number_toString (Fin ps) (Fin (cp * ps))
                            (selectedCategories s) (selectedSubCategories s)
                            (selectedEndCategories s)
                            (minPrice s) (maxPrice s) (minDiscount s) (maxDiscount s)
                            (selectedStores s) ] |} ]) ∧
  ((1 < cp)%Z -> safe ((cp - 2) * ps) ->
     currentPage (prevPage s).1 = Fin (cp - 1) ∧
     (prevPage s).2 =
       [ {| callback := OnGraphData;
            requests := [ ApiService.getGraphData number Number_toString (Fin ps)
                            (Fin ((cp - 2) * ps))
                            (selectedCategories s) (selectedSubCategories s)
                            (selectedEndCategories s)
                            (minPrice s) (maxPrice s) (minDiscount s) (maxDiscount s)
                            (selectedStores s) ] |} ]) ∧
  ((1 <= cp < tp)%Z -> currentPage (prevPage (nextPage s).1).1 = Fin cp).
Proof.
  intros Hcp Htp Hps _ _ _. unfold nextPage, prevPage, gt. rewrite Hcp, Htp.
  cbn [lt add JS.sub neg].
  split; [|split; [|split; [|split]]].
  - intros H. now rewrite (proj2 (Z.ltb_ge cp tp)) by exact H.
  - intros H. now rewrite (proj2 (Z.ltb_ge 1 cp)) by exact H.
  - intros H _. rewrite (proj2 (Z.ltb_lt cp tp)) by exact H.
    rewrite (fetchData_at (set_currentPage (Fin (cp + 1)) s) (cp + 1) ps) by (reflexivity || exact Hps).
    cbn [fst snd currentPage set_error set_isLoading set_currentPage selectedCategories
         selectedSubCategories selectedEndCategories minPrice maxPrice minDiscount maxDiscount
         selectedStores].
    split; [reflexivity|]. now replace (cp + 1 - 1)%Z with cp by lia.
  - intros H _. rewrite (proj2 (Z.ltb_lt 1 cp)) by exact H.
    rewrite (fetchData_at (set_currentPage (Fin (cp + - (1))) s) (cp + - (1)) ps)
      by (reflexivity || exact Hps).
    cbn [fst snd currentPage set_error set_isLoading set_currentPage selectedCategories
         selectedSubCategories selectedEndCategories minPrice maxPrice minDiscount maxDiscount
         selectedStores].
    split; [f_equal; lia|]. now replace (cp + - (1) - 1)%Z with (cp - 2)%Z by lia.
  - intros [H1 H2]. rewrite (proj2 (Z.ltb_lt cp tp)) by exact H2.
    rewrite (fetchData_at (set_currentPage (Fin (cp + 1)) s) (cp + 1) ps) by (reflexivity || exact Hps).
    cbn [fst currentPage set_error set_isLoading set_currentPage lt].
    rewrite (proj2 (Z.ltb_lt 1 (cp + 1))) by lia.
    unfold fetchData.
    cbn [fst currentPage set_error set_isLoading set_currentPage JS.sub add neg].
    f_equal. lia.
Qed.

Lemma nextPage_prevPage_steps_witness :
  let s := set_totalPages (Fin 3) (set_currentPage (Fin 2) initial) in
  currentPage s = Fin 2 ∧ totalPages s = Fin 3 ∧ pageSize s = Fin 30 ∧
  currentPage (nextPage s).1 = Fin 3 ∧
  currentPage (prevPage s).1 = Fin 1 ∧
  nextPage (nextPage s).1 = ((nextPage s).1, []) ∧
  currentPage (prevPage (nextPage s).1).1 = Fin 2.
Proof.
  cbv zeta.
  assert (S2 : safe 2) by (unfold safe; lia).
  assert (S3 : safe 3) by (unfold safe; lia).
  assert (S30 : safe 30) by (unfold safe; lia).
  pose proof (nextPage_prevPage_steps (set_totalPages (Fin 3) (set_currentPage (Fin 2) initial))
                2 3 30 eq_refl eq_refl eq_refl S2 S3 S30) as (_ & _ & Hn & Hp & Hrt).
  pose proof (nextPage_prevPage_steps
                (nextPage (set_totalPages (Fin 3) (set_currentPage (Fin 2) initial))).1
                3 3 30 eq_refl eq_refl eq_refl S3 S3 S30) as (Hlast & _).
  split; [reflexivity|]. split; [reflexivity|]. split; [reflexivity|].
  split; [apply Hn; [lia | unfold safe; lia]|].
  split; [apply Hp; [lia | unfold safe; lia]|]. split; [apply Hlast; lia|].
  apply Hrt. lia.
Defined.

(** ** Page state of reachable states *)

Lemma handle_pageSize (e : Event) (s : State) : pageSize (handle e s) = pageSize s.
Proof. destruct e; run_handlers; reflexivity. Qed.

Lemma handle_totalPages (e : Event) (s : State) :
  totalPages (handle e s) = totalPages s ∨
  ∃ x, totalPages (handle e s) = or_else x (Fin 1).
Proof. destruct e; run_handlers; eauto. Qed.

Lemma or_else_truthy (x : number) : truthy (or_else x (Fin 1)) = true.
Proof. unfold or_else. destruct (truthy x) eqn:E; [exact E | reflexivity]. Qed.

Lemma handle_currentPage_not_NaN (e : Event) (s : State) :
  truthy (totalPages s) = true -> isNaN (currentPage s) = false ->
  isNaN (currentPage (handle e s)) = false.
Proof.
  intros Htp Hcp. destruct e; run_handlers; try assumption; try reflexivity;
    unfold gt in *;
    repeat match goal with
           | H : context [Number_of_string ?v] |- _ => destruct (Number_of_string v)
           | |- context [Number_of_string ?v] => destruct (Number_of_string v)
           end;
    destruct (currentPage s), (totalPages s); cbn in *; congruence.
Qed.

(** X16. Whatever the server answers and whatever is typed into the page
    field, in every reachable state the page size is 30, the page count is
    neither 0 nor [NaN], and the current page is not [NaN]. *)
Theorem page_state_never_degenerate (s : State) :
  reachable s ->
  pageSize s = Fin 30 ∧ truthy (totalPages s) = true ∧ isNaN (currentPage s) = false.
Proof.
  induction 1 as [|e s Hr (IH1 & IH2 & IH3)]; [repeat split|].
  split; [now rewrite handle_pageSize|]. split.
  - destruct (handle_totalPages e s) as [-> | [x ->]]; [exact IH2 | apply or_else_truthy].
  - now apply handle_currentPage_not_NaN.
Qed.

Lemma page_state_never_degenerate_witness :
  let r := {| bindings := [ {[ "totalCount" := {| type := "literal"; value := "not a number" |} ]} ] |} in
  let s := handle (GoToPage "abc") (handle (GraphDataArrived (Next r)) initial) in
  reachable s ∧ totalPages s = Fin 1 ∧ currentPage s = Fin 1 ∧
  pageSize s = Fin 30 ∧ truthy (totalPages s) = true ∧ isNaN (currentPage s) = false.
Proof.
  cbv zeta.
  assert (Hr : reachable
                 (handle (GoToPage "abc")
                    (handle (GraphDataArrived
                               (Next {| bindings := [ {[ "totalCount" := {| type := "literal"; value := "not a number" |} ]} ] |}))
                       initial)))
    by (apply reachable_handle, reachable_handle, reachable_initial).
  split; [exact Hr|]. split; [vm_compute; reflexivity|]. split; [vm_compute; reflexivity|].
  exact (page_state_never_degenerate _ Hr).
Defined.

(** The page count a counted response sets is an integer from 1, in range. *)
Lemma counted_totalPages (cell : Term) (n : Z) :
  (0 <= n)%Z -> safe n -> value cell = Number_toString (Fin n) ->
  ∃ tp : Z, or_else (Math_ceil_div (Number_of_string (value cell)) (Fin 30)) (Fin 1) = Fin tp ∧
            page_in_range tp.
Proof.
  intros Hn Hs ->. rewrite Number_of_string_toString. cbn [Math_ceil_div Z.eqb].
  pose proof (Zceil_div_bounds n 30 ltac:(lia)) as Hc.
  unfold page_in_range, safe in *.
  unfold or_else. destruct (Zceil_div n 30) as [|c|c] eqn:E; cbn [truthy].
  - exists 1%Z. split; [reflexivity | lia].
  - exists (Z.pos c). split; [reflexivity | lia].
  - lia.
Qed.

(** The page [goToPage] settles on, at an integer page count from 1. *)
Lemma clamp_integer (n : number) (tp : Z) :
  (1 <= tp)%Z ->
  ∃ p : Z,
    (let page := if isNaN n || lt n (Fin 1) then Fin 1 else n in
     if gt page (Fin tp) then Fin tp else page) = Fin p ∧ (1 <= p <= tp)%Z.
Proof.
  intros Htp.
  assert (H1 : le (Fin 1) (Fin tp) = true) by (cbn; apply negb_true_iff, Z.ltb_ge; lia).
  destruct (clamp_range n (Fin tp) H1) as [Ha Hb]. cbv zeta in Ha, Hb |- *.
  destruct (if gt (if isNaN n || lt n (Fin 1) then Fin 1 else n) (Fin tp) then Fin tp
            else if isNaN n || lt n (Fin 1) then Fin 1 else n) as [| | |p];
    cbn in Ha, Hb; try discriminate.
  exists p. split; [reflexivity|].
  apply negb_true_iff, Z.ltb_ge in Ha. apply negb_true_iff, Z.ltb_ge in Hb. lia.
Qed.

Lemma handle_pages_from_one (e : Event) (s : State) :
  counted_event e -> pages_from_one s -> pages_from_one (handle e s).
Proof.
  intros He (Hps & cp & tp & Hcp & Htp & H1 & H2). unfold pages_from_one.
  rewrite handle_pageSize. split; [exact Hps|].
  assert (Htp1 : (1 <= tp)%Z) by apply H2.
  unfold page_in_range, safe in *.
  destruct e;
    try (exists cp, tp; run_handlers; repeat split; first [assumption | lia]).
  - (* applyFilters *)
    exists 1%Z, tp. run_handlers. repeat split; first [assumption | lia].
  - (* nextPage *)
    unfold handle, nextPage. rewrite Hcp, Htp. cbn [lt add].
    destruct (Z.ltb_spec cp tp); [exists (cp + 1)%Z, tp | exists cp, tp];
      run_handlers; repeat split; first [assumption | lia].
  - (* prevPage *)
    unfold handle, prevPage, gt. rewrite Hcp. cbn [lt JS.sub add neg].
    destruct (Z.ltb_spec 1 cp); [exists (cp + - (1))%Z, tp | exists cp, tp];
      run_handlers; repeat split; first [assumption | lia].
  - (* goToPage *)
    unfold handle, goToPage. rewrite Htp.
    destruct (clamp_integer (Number_of_string input_value) tp Htp1) as (p & Hp & Hrange).
    cbv zeta in Hp. rewrite Hp. exists p, tp. unfold fetchData.
    cbn [fst currentPage totalPages set_error set_isLoading set_currentPage].
    repeat split; first [assumption | lia].
  - (* the listing arrives *)
    destruct o as [r|];
      [|exists cp, tp; run_handlers; repeat split; first [assumption | lia]].
    cbn [counted_event] in He. unfold handle, subscribe, fetchData_next.
    cbn [tableData set_tableData pageSize].
    destruct (bindings r !! 0%nat) as [row|] eqn:Hrow;
      [|exists cp, tp; run_handlers; repeat split; first [assumption | lia]].
    destruct (row !! "totalCount") as [cell|] eqn:Hcell;
      [|exists cp, tp; run_handlers; repeat split; first [assumption | lia]].
    destruct (He row cell Hrow Hcell) as (n & Hn & Hsafe & Hval).
    rewrite Hps. destruct (counted_totalPages cell n Hn Hsafe Hval) as (tp' & -> & Htp').
    unfold page_in_range, safe in Htp'.
    exists cp, tp'. run_handlers. repeat split; first [assumption | lia].
Qed.

(** X15. As long as every listing response carries a non-negative safe
    integer count and every text typed into the page field is an integer, an
    infinity or no number, the page size stays 30 and the current page and
    the page count stay integers from 1 whose offset is a safe integer; so a
    fetch from any state reached posts limit 30 and a non-negative offset
    that is a multiple of 30. *)
Theorem pages_stay_from_one (s : State) :
  reachable_counted s ->
  pages_from_one s ∧
  ∃ k : Z, (0 <= k)%Z ∧ safe (k * 30) ∧
    (fetchData s).2 =
      [ {| callback := OnGraphData;
           requests := [ ApiService.getGraphData number Number_toString (Fin 30) (Fin (k * 30))
                           (selectedCategories s) (selectedSubCategories s)
                           (selectedEndCategories s)
                           (minPrice s) (maxPrice s) (minDiscount s) (maxDiscount s)
                           (selectedStores s) ] |} ].
Proof.
  intros Hr.
  assert (Hp : pages_from_one s).
  { induction Hr as [|e s Hr IH He]; [|now apply handle_pages_from_one].
    split; [reflexivity|]. exists 1%Z, 1%Z. unfold page_in_range, safe. repeat split; lia. }
  split; [exact Hp|]. destruct Hp as (Hps & cp & tp & Hcp & Htp & [H1 H1'] & H2).
  exists (cp - 1)%Z. split; [lia|]. split; [exact H1'|]. now rewrite (fetchData_at s cp 30 Hcp Hps).
Qed.

Lemma pages_stay_from_one_witness :
  let r := {| bindings := [ {[ "totalCount" := {| type := "literal"; value := "61" |} ]} ] |} in
  let s := handle (GoToPage "99") (handle (GraphDataArrived (Next r)) (handle NgOnInit initial)) in
  reachable_counted s ∧ currentPage s = Fin 3 ∧ totalPages s = Fin 3 ∧
  pages_from_one s ∧
  ∃ k : Z, (0 <= k)%Z ∧ safe (k * 30) ∧
    (fetchData s).2 =
      [ {| callback := OnGraphData;
           requests := [ ApiService.getGraphData number Number_toString (Fin 30) (Fin (k * 30))
                           (selectedCategories s) (selectedSubCategories s)
                           (selectedEndCategories s)
                           (minPrice s) (maxPrice s) (minDiscount s) (maxDiscount s)
                           (selectedStores s) ] |} ].
Proof.
  cbv zeta.
  assert (Hr : reachable_counted
                 (handle (GoToPage "99")
                    (handle (GraphDataArrived
                               (Next {| bindings := [ {[ "totalCount" := {| type := "literal"; value := "61" |} ]} ] |}))
                       (handle NgOnInit initial)))).
  { apply reachable_counted_handle.
    2:{ exists (Fin 99). apply (reads_digits "99" (Decimal.D9 (Decimal.D9 Decimal.Nil)));
          [reflexivity | unfold safe; cbn; lia]. }
    apply reachable_counted_handle;
      [apply reachable_counted_handle; [apply reachable_counted_initial | exact I]|].
    intros row cell Hrow Hcell. injection Hrow as <-.
    exists 61%Z. split; [lia|]. split; [unfold safe; lia|].
    vm_compute in Hcell. injection Hcell as <-. reflexivity. }
  split; [exact Hr|]. split; [vm_compute; reflexivity|]. split; [vm_compute; reflexivity|].
  exact (pages_stay_from_one _ Hr).
Defined.

(** ** The listing callbacks *)

(** X17. With a row 0 in the response: when row 0 has no count cell the
    [next] callback throws after replacing the table, leaving the page count
    and the loading flag as they were; when its count is text that is no
    number (a sign alone or followed by what continues no literal, or text
    that opens with an ASCII character that starts no literal) the page count
    falls back to 1; and the page count is read from row 0 alone, whatever
    the other rows hold. *)
Theorem fetchData_next_reads_row_0 (r r' : Response) (row : SparqlBinding) (s : State) :
  bindings r !! 0%nat = Some row ->
  bindings r' !! 0%nat = Some row ->
  (row !! "totalCount" = None ->
     fetchData_next r s = Throw TypeError (set_tableData (bindings r) s)) ∧
  (∀ cell, row !! "totalCount" = Some cell -> Number_reads (value cell) NaN ->
     fetchData_next r s =
       Normal (set_isLoading false (set_totalPages (Fin 1) (set_tableData (bindings r) s)))) ∧
  totalPages (state_of (fetchData_next r s)) = totalPages (state_of (fetchData_next r' s)).
Proof.
  intros Hr Hr'. unfold fetchData_next. cbn [tableData set_tableData pageSize].
  rewrite Hr, Hr'. split; [|split].
  - now intros ->.
  - intros cell -> Hnan. rewrite (Number_reads_sound _ _ Hnan). reflexivity.
  - destruct (row !! "totalCount"); reflexivity.
Qed.

Lemma fetchData_next_reads_row_0_witness :
  let row : SparqlBinding := {[ "totalCount" := {| type := "literal"; value := "many" |} ]} in
  let other : SparqlBinding := {[ "totalCount" := {| type := "literal"; value := "90" |} ]} in
  let r := {| bindings := [row; other] |} in
  let r' := {| bindings := [row] |} in
  bindings r !! 0%nat = Some row ∧ bindings r' !! 0%nat = Some row ∧
  Number_reads "many" NaN ∧
  totalPages (state_of (fetchData_next r initial)) = Fin 1 ∧
  (row !! "totalCount" = None ->
     fetchData_next r initial = Throw TypeError (set_tableData (bindings r) initial)) ∧
  (∀ cell, row !! "totalCount" = Some cell -> Number_reads (value cell) NaN ->
     fetchData_next r initial =
       Normal (set_isLoading false (set_totalPages (Fin 1) (set_tableData (bindings r) initial)))) ∧
  totalPages (state_of (fetchData_next r initial)) =
    totalPages (state_of (fetchData_next r' initial)).
Proof.
  cbv zeta. split; [reflexivity|]. split; [reflexivity|].
  split; [apply reads_text; reflexivity|]. split; [vm_compute; reflexivity|].
  apply (fetchData_next_reads_row_0
           {| bindings := [ {[ "totalCount" := {| type := "literal"; value := "many" |} ]};
                            {[ "totalCount" := {| type := "literal"; value := "90" |} ]} ] |}
           {| bindings := [ {[ "totalCount" := {| type := "literal"; value := "many" |} ]} ] |}
           {[ "totalCount" := {| type := "literal"; value := "many" |} ]} initial);
    reflexivity.
Defined.

(** X18. The answer to a fetch never touches the error message. Answered
    with a row 0 that has a count cell, the [next] callback completes
    normally in whatever state it finds: the rows of the answer become the
    table, loading is cleared, and the error message, the current page and
    the selections stay as found. A fetch clears the message when it starts;
    so after the answer the message is the one set since the fetch started:
    none when no other callback ran, and the message of a store or category
    lookup that failed while the listing was in flight. *)
Theorem fetch_answer_keeps_error (s : State) (r : Response) (row : SparqlBinding) (cell : Term) :
  bindings r !! 0%nat = Some row -> row !! "totalCount" = Some cell ->
  ∃ s' : State,
    fetchData_next r s = Normal s' ∧
    tableData s' = bindings r ∧ isLoading s' = false ∧ error s' = error s ∧
    currentPage s' = currentPage s ∧
    selectedCategories s' = selectedCategories s ∧
    selectedSubCategories s' = selectedSubCategories s ∧
    selectedEndCategories s' = selectedEndCategories s ∧
    selectedStores s' = selectedStores s ∧
    error (fetchData s).1 = None ∧
    error (state_of (fetchData_next r (fetchData s).1)) = None ∧
    error (state_of (fetchData_next r (state_of (loadStores_error (fetchData s).1)))) =
      Some "Could not load stores." ∧
    error (state_of (fetchData_next r (state_of (loadInitialCategories_error (fetchData s).1)))) =
      Some "Could not load categories.".
Proof.
  intros Hrow Hcell.
  assert (Hnext : ∀ s1, fetchData_next r s1 =
            Normal (set_isLoading false
                      (set_totalPages
                         (or_else (Math_ceil_div (Number_of_string (value cell)) (pageSize s1))
                            (Fin 1))
                         (set_tableData (bindings r) s1)))).
  { intros s1. unfold fetchData_next. cbn [tableData set_tableData pageSize].
    now rewrite Hrow, Hcell. }
  eexists. split; [apply Hnext|]. rewrite !Hnext. repeat split.
Qed.

Lemma fetch_answer_keeps_error_witness :
  let row : SparqlBinding := {[ "totalCount" := {| type := "literal"; value := "61" |} ]} in
  let r := {| bindings := [row] |} in
  let s := handle (GraphDataArrived (Next r)) (handle (StoresArrived Errored) (handle NgOnInit initial)) in
  bindings r !! 0%nat = Some row ∧
  error s = Some "Could not load stores." ∧ isLoading s = false ∧ tableData s = [row] ∧
  error (state_of (fetchData_next r (state_of (loadStores_error (fetchData initial).1)))) =
    Some "Could not load stores.".
Proof.
  cbv zeta. split; [reflexivity|]. split; [vm_compute; reflexivity|].
  split; [vm_compute; reflexivity|]. split; [vm_compute; reflexivity|].
  destruct (fetch_answer_keeps_error initial
              {| bindings := [ {[ "totalCount" := {| type := "literal"; value := "61" |} ]} ] |}
              {[ "totalCount" := {| type := "literal"; value := "61" |} ]}
              {| type := "literal"; value := "61" |} eq_refl)
    as (s' & _ & _ & _ & _ & _ & _ & _ & _ & _ & _ & _ & H & _); [vm_compute; reflexivity|].
  exact H.
Defined.

(** ** The published options *)

Lemma Set_fold_sublist (xs acc : list string) :
  ∃ ys, fold_left Set_add xs acc = acc ++ ys ∧ ys `sublist_of` xs.
Proof.
  revert acc. induction xs as [|x xs IH]; intros acc; cbn [fold_left].
  - exists []. now rewrite app_nil_r.
  - unfold Set_add at 2. case_bool_decide.
    + destruct (IH acc) as (ys & -> & Hys). exists ys. split; [reflexivity|].
      now apply sublist_cons.
    + destruct (IH (acc ++ [x])) as (ys & -> & Hys). exists (x :: ys).
      split; [now rewrite <- app_assoc|]. now apply sublist_skip.
Qed.

Lemma Set_fold_first_occurrences (xs acc : list string) :
  fold_left Set_add xs acc = acc ++ filter (λ y, y ∉ acc) (first_occurrences xs).
Proof.
  revert acc. induction xs as [|x xs IH]; intros acc; cbn [fold_left first_occurrences].
  - now rewrite filter_nil, app_nil_r.
  - unfold Set_add at 2. case_bool_decide as Hx.
    + rewrite IH, filter_cons_False by (intros Hn; exact (Hn Hx)).
      rewrite list_filter_filter_l; [reflexivity|].
      intros y Hy ->. exact (Hy Hx).
    + rewrite IH, filter_cons_True by exact Hx.
      rewrite <- app_assoc. cbn [app]. do 2 f_equal.
      rewrite list_filter_filter. apply list_filter_iff. intros y.
      rewrite elem_of_app, list_elem_of_singleton. tauto.
Qed.

Lemma Set_spread_first_occurrences (xs : list string) :
  Set_spread xs = first_occurrences xs.
Proof.
  unfold Set_spread. rewrite Set_fold_first_occurrences. cbn [app].
  induction (first_occurrences xs) as [|y l IH]; [reflexivity|].
  rewrite filter_cons_True by apply not_elem_of_nil. now rewrite IH.
Qed.

(** Where a value stands among the spread values: behind exactly the values
    that occur before its first occurrence. *)
Lemma Set_spread_position (xs : list string) (i : nat) (x : string) :
  Set_spread xs !! i = Some x ->
  ∃ j, xs !! j = Some x ∧ (x ∉ take j xs) ∧
       ∀ y, y ∈ take i (Set_spread xs) ↔ y ∈ take j xs.
Proof.
  intros Hi.
  assert (Hx : x ∈ xs) by (apply Set_spread_elem_of; eapply list_elem_of_lookup_2; exact Hi).
  destruct (list_elem_of_split_l _ _ Hx) as (pre & post & -> & Hpre).
  assert (Hsp : ∃ ys, Set_spread (pre ++ x :: post) = Set_spread pre ++ x :: ys).
  { unfold Set_spread. rewrite fold_left_app. cbn [fold_left]. unfold Set_add at 2.
    rewrite bool_decide_eq_false_2
      by (intros Hin; apply Hpre; apply Set_spread_elem_of; exact Hin).
    destruct (Set_fold_sublist post (fold_left Set_add pre [] ++ [x])) as (ys & -> & _).
    exists ys. now rewrite <- app_assoc. }
  destruct Hsp as (ys & Hsp).
  assert (Hlen : i = length (Set_spread pre)).
  { apply (NoDup_lookup (Set_spread (pre ++ x :: post)) _ _ x);
      [apply Set_spread_NoDup | exact Hi |].
    rewrite Hsp. apply list_lookup_middle. reflexivity. }
  exists (length pre). split; [now apply list_lookup_middle|].
  rewrite take_app_length. split; [exact Hpre|].
  intros y. rewrite Hsp, Hlen, take_app_length. apply Set_spread_elem_of.
Qed.

(** X19. What a cascade publishes is the labels of the joined results, every
    label once and in the order of first occurrence: the list of first
    occurrences of the results laid end to end. It has no duplicates, it is a
    sublist of the results with the same members, and every published label
    stands behind exactly the labels that occur before its first occurrence
    in the results. It is the results themselves when no label occurs twice,
    and both levels are published by the same rule. *)
Theorem cascade_options_in_first_order (results : list (list string)) (s : State) :
  ∃ options : list string,
    loadSubCategories_next results s = Normal (set_subCategories options s) ∧
    loadEndCategories_next results s = Normal (set_endCategories options s) ∧
    options = first_occurrences (flat results) ∧
    NoDup options ∧
    options `sublist_of` flat results ∧
    (∀ x, x ∈ options ↔ x ∈ flat results) ∧
    (∀ i x, options !! i = Some x ->
       ∃ j, flat results !! j = Some x ∧ (x ∉ take j (flat results)) ∧
            ∀ y, y ∈ take i options ↔ y ∈ take j (flat results)) ∧
    (NoDup (flat results) -> options = flat results) ∧
    (results = [["Gaming"; "Ultrabook"]; ["Office"; "Gaming"]] ->
       options = ["Gaming"; "Ultrabook"; "Office"]) ∧
    (results = [["Gaming"; "Ultrabook"; "Gaming"]] -> options = ["Gaming"; "Ultrabook"]).
Proof.
  exists (Set_spread (flat results)). split; [reflexivity|]. split; [reflexivity|].
  split; [apply Set_spread_first_occurrences|]. split; [apply Set_spread_NoDup|].
  split; [|split; [|split; [|split; [|split]]]].
  - destruct (Set_fold_sublist (flat results) []) as (ys & Hys & Hsub).
    unfold Set_spread. rewrite Hys. exact Hsub.
  - apply Set_spread_elem_of.
  - apply Set_spread_position.
  - apply Set_spread_NoDup_id.
  - intros ->. vm_compute. reflexivity.
  - intros ->. vm_compute. reflexivity.
Qed.

Lemma cascade_options_in_first_order_witness :
  loadSubCategories_next [["Gaming"; "Ultrabook"]; ["Office"; "Gaming"]] initial =
    Normal (set_subCategories ["Gaming"; "Ultrabook"; "Office"] initial) ∧
  loadEndCategories_next [["Gaming"; "Ultrabook"; "Gaming"]] initial =
    Normal (set_endCategories ["Gaming"; "Ultrabook"] initial).
Proof.
  split.
  - destruct (cascade_options_in_first_order [["Gaming"; "Ultrabook"]; ["Office"; "Gaming"]] initial)
      as (options & -> & _ & _ & _ & _ & _ & _ & _ & H & _).
    now rewrite (H eq_refl).
  - destruct (cascade_options_in_first_order [["Gaming"; "Ultrabook"; "Gaming"]] initial)
      as (options & _ & -> & _ & _ & _ & _ & _ & _ & _ & H).
    now rewrite (H eq_refl).
Defined.
